(** * express-libp2p-go: identity and message-routing bridge

    A shallow embedding of [libp2p_utils.go] and [node_service.go] (the
    latter also carries the process wiring: [main], the HTTP controller and
    [SendHandler]).  Go values are modelled as follows.

    - [[]byte] is [list byte]; a Go [string] is a Rocq [string] (both are
      sequences of 8-bit units).
    - [map[string]interface{}] is a [gmap string value] wrapped in an
      [option] for the nil map; [interface{}] values that the JSON decoder
      can produce are the inductive [value].
    - Functions that perform I/O thread an explicit [world]: the files on
      disk, the number of clock readings taken, and the chronological trace
      of externally visible events.  The answers of the collaborators
      (overlay host, tunnel, operating system, decoders) are the fields of
      an [env] record; every theorem quantifies over it.
    - [log.Fatal] ends the process: computations return an [outcome] that
      is either [Done], [Fatal] or [Panic] (nil dereference).
    - The inbound loop runs in a goroutine of its own.  It is modelled on
      its own, as a function of the deliveries its subscription makes; the
      HTTP handler is modelled on its own as well.  The two share no
      variable of the program, only the world.

    [node_service.go] carries second copies of [handleIncomingMessages] and
    [HandleOutgoingMessage] next to [main]; they differ from the first ones
    in what they log, and are embedded under the suffix [_main]. *)

From Stdlib Require Import ZArith Strings.Byte Strings.Ascii.
From stdpp Require Import gmap strings list sorting pretty.

#[local] Open Scope Z_scope.
#[local] Set Warnings "-register-all".

(** ** Bytes and strings *)

Definition bytes : Type := list byte.

(** [[]byte(s)] and [string(b)]. *)
Definition B (s : string) : bytes := String.list_byte_of_string s.
Definition Str (b : bytes) : string := String.string_of_list_byte b.

Definition byte_val (b : byte) : Z := Z.of_N (Byte.to_N b).

(** [strings.Split(s, sep)] for a one-byte separator. *)
Fixpoint strings_Split (s : string) (sep : ascii) : list string :=
  match s with
  | EmptyString => [EmptyString]
  | String c rest =>
      let pieces := strings_Split rest sep in
      if bool_decide (c = sep) then EmptyString :: pieces
      else match pieces with
           | first :: others => String c first :: others
           | [] => [String c EmptyString]
           end
  end.

(** ** base58.Encode (github.com/mr-tron/base58, Bitcoin alphabet)

    Every leading zero byte becomes the digit ['1']; the remaining bytes,
    read as a big-endian natural number, are written in base 58. *)
Module base58.

Definition alphabet : string :=
  "123456789ABCDEFGHJKLMNPQRSTUVWXYZabcdefghijkmnopqrstuvwxyz".

Definition digit (d : Z) : ascii :=
  match String.get (Z.to_nat d) alphabet with
  | Some c => c
  | None => "1"%char
  end.

Fixpoint zcount (bin : bytes) : nat :=
  match bin with
  | b :: rest => if byte_val b =? 0 then S (zcount rest) else O
  | [] => O
  end.

Fixpoint big_endian (acc : Z) (bin : bytes) : Z :=
  match bin with
  | [] => acc
  | b :: rest => big_endian (acc * 256 + byte_val b) rest
  end.

(** Digits of [n], most significant first.  [fuel] bounds the number of
    digits; two digits per input byte are always enough. *)
Fixpoint digits (fuel : nat) (n : Z) (acc : string) : string :=
  match fuel with
  | O => acc
  | S fuel' =>
      if n =? 0 then acc
      else digits fuel' (n / 58) (String (digit (n mod 58)) acc)
  end.

Fixpoint ones (k : nat) : string :=
  match k with
  | O => ""
  | S k' => String "1"%char (ones k')
  end.

Definition Encode (bin : bytes) : string :=
  ones (zcount bin) +:+ digits (2 * length bin) (big_endian 0 bin) "".

End base58.

(** ** Keypair and identity (libp2p_utils.go) *)

Record Keypair : Type := mkKeypair {
  Seed : bytes;
  CreatedAt : string;
  LastUsed : string;
  PublicKey : bytes;
}.

(** [append([]byte{0xed, 0x01}, publicKey...)] followed by the namespace
    prefix. *)
Definition ToSightDID (publicKey : bytes) : string :=
  let multicodec := [xed; x01] ++ publicKey in
  "did:sight:hoster:" +:+ base58.Encode multicodec.

(** A Go [(T, error)] pair; the message stands for the error value. *)
Inductive result (A : Type) : Type :=
| Ok (a : A)
| Err (e : string).
Arguments Ok {A} a.
Arguments Err {A} e.

(** ** encoding/json: the values behind [interface{}] and [json.Marshal] *)
Module json.

(** The dynamic values [json.Unmarshal] stores into an [interface{}]:
    nil, bool, float64, string, [[]interface{}] and
    [map[string]interface{}].  A float64 is named by the text the encoder
    prints for it (the decoder only yields finite numbers, and the
    printed text determines the number).  [VNilMap] is a nil map held in
    an interface, which [SendHandler] creates from a [null] body. *)
Inductive value : Type :=
| VNil
| VBool (b : bool)
| VNum (text : string)
| VStr (s : string)
| VArr (l : list value)
| VMap (m : gmap string value)
| VNilMap.

(** A variable of type [map[string]interface{}]: [None] is the nil map. *)
Definition gomap : Type := option (gmap string value).

(** [m[k]]: reading a missing key, or any key of a nil map, gives the
    nil interface. *)
Definition index (m : gomap) (k : string) : value :=
  match m with
  | Some m' => default VNil (m' !! k)
  | None => VNil
  end.

(** Storing a map variable into an [interface{}]. *)
Definition iface (m : gomap) : value :=
  match m with
  | Some m' => VMap m'
  | None => VNilMap
  end.

(** [x == s] for [x interface{}] and [s string]: true exactly when the
    dynamic type of [x] is string and the strings are equal. *)
Definition eq_string (x : value) (s : string) : bool :=
  match x with
  | VStr t => bool_decide (t = s)
  | _ => false
  end.

Definition dquote : string := String "034"%char EmptyString.
Definition backslash : string := String "092"%char EmptyString.

Definition hex (n : Z) : string :=
  match String.get (Z.to_nat n) "0123456789abcdef" with
  | Some c => String c EmptyString
  | None => "0"
  end.

Definition between (lo hi b : Z) : bool := (lo <=? b) && (b <=? hi).

(** [utf8.DecodeRune] at the head of [s]: the length of the valid
    encoding found there, [O] for [(RuneError, 1)]. *)
Definition rune_size (s : list Z) : nat :=
  match s with
  | b0 :: b1 :: rest =>
      if between 0xC2 0xDF b0 then
        if between 0x80 0xBF b1 then 2%nat else O
      else if between 0xE0 0xEF b0 then
        match rest with
        | b2 :: _ =>
            if between (if b0 =? 0xE0 then 0xA0 else 0x80)
                       (if b0 =? 0xED then 0x9F else 0xBF) b1
               && between 0x80 0xBF b2 then 3%nat else O
        | [] => O
        end
      else if between 0xF0 0xF4 b0 then
        match rest with
        | b2 :: b3 :: _ =>
            if between (if b0 =? 0xF0 then 0x90 else 0x80)
                       (if b0 =? 0xF4 then 0x8F else 0xBF) b1
               && between 0x80 0xBF b2 && between 0x80 0xBF b3
            then 4%nat else O
        | _ => O
        end
      else O
  | _ => O
  end.

Definition raw (s : list Z) : string :=
  Str (omap (λ b, Byte.of_N (Z.to_N b)) s).

(** One ASCII byte, as the encoder writes it inside a string (HTML
    escaping on, as [json.Marshal] has it; backspace and form feed in
    their short form, as from Go 1.22). *)
Definition escape_ascii (b : Z) : string :=
  if (b =? 0x22) || (b =? 0x5C) then backslash +:+ raw [b]
  else if b =? 0x0A then backslash +:+ "n"
  else if b =? 0x0D then backslash +:+ "r"
  else if b =? 0x09 then backslash +:+ "t"
  else if b =? 0x08 then backslash +:+ "b"
  else if b =? 0x0C then backslash +:+ "f"
  else if (b <? 0x20) || (b =? 0x3C) || (b =? 0x3E) || (b =? 0x26) then
    backslash +:+ "u00" +:+ hex (b / 16) +:+ hex (b mod 16)
  else raw [b].

(** The loop of the encoder's [appendString]; every round consumes at
    least one byte, so [length s] rounds are enough. *)
Fixpoint escape_bytes (fuel : nat) (s : list Z) : string :=
  match fuel, s with
  | S fuel', b :: rest =>
      if b <? 0x80 then escape_ascii b +:+ escape_bytes fuel' rest
      else
        match rune_size s with
        | O => backslash +:+ "ufffd" +:+ escape_bytes fuel' rest
        | n =>
            match take n s with
            | [0xE2; 0x80; 0xA8] =>
                backslash +:+ "u2028" +:+ escape_bytes fuel' (drop n s)
            | [0xE2; 0x80; 0xA9] =>
                backslash +:+ "u2029" +:+ escape_bytes fuel' (drop n s)
            | r => raw r +:+ escape_bytes fuel' (drop n s)
            end
        end
  | _, _ => EmptyString
  end.

Definition quote (s : string) : string :=
  let bs := byte_val <$> B s in
  dquote +:+ escape_bytes (length bs) bs +:+ dquote.

Definition key_le (p q : string * string) : Prop :=
  String.leb p.1 q.1 = true.

#[global] Instance key_le_dec p q : Decision (key_le p q).
Proof. unfold key_le. apply _. Defined.

Definition member (kv : string * string) : string :=
  quote kv.1 +:+ ":" +:+ kv.2.

(** The text [json.Marshal] produces; object members are written in the
    byte order of their keys. *)
Fixpoint encode (v : value) : string :=
  match v with
  | VNil | VNilMap => "null"
  | VBool b => if b then "true" else "false"
  | VNum text => text
  | VStr s => quote s
  | VArr l => "[" +:+ String.concat "," (encode <$> l) +:+ "]"
  | VMap m =>
      "{" +:+ String.concat ","
                (member <$> merge_sort key_le (map_to_list (encode <$> m)))
          +:+ "}"
  end.

(** [json.Marshal].  The encoder fails on channels, functions, cyclic
    data and non-finite floats; no [value] is any of these, so the error
    result is never produced here. *)
Definition Marshal (v : value) : result bytes := Ok (B (encode v)).

(** [Encoder.Encode]: the same text followed by a newline. *)
Definition Encode (v : value) : bytes :=
  B (encode v +:+ String "010"%char EmptyString).

End json.

(** ** The world outside the process *)

(** [peer.AddrInfo]. *)
Record AddrInfo : Type := mkAddrInfo {
  ID : string;
  Addrs : list string;
}.

(** [libp2p.Host]: the peer id it was given by the library, its private
    identity key and its listen address. *)
Record Host : Type := mkHost {
  host_ID : string;
  host_identity : bytes;
  host_listen : string;
}.

Record PubSub : Type := mkPubSub { ps_host : Host }.
Record Topic : Type := mkTopic { topic_name : string }.
Record Subscription : Type := mkSubscription { sub_topic : string }.

(** Everything the process does to its surroundings, in the order it
    happens. *)
Inductive event : Type :=
| EvLog (line : string)
| EvKeyGen (priv pub : bytes)
| EvMkdirAll (path : string)
| EvWriteFile (path : string) (data : bytes)
| EvHostNew (listen : string) (priv : bytes)
| EvGossipSub (host : string)
| EvConnect (info : AddrInfo)
| EvJoin (name : string)
| EvSubscribe (name : string)
| EvPublish (name : string) (data : bytes)
| EvPost (url contentType : string) (body : bytes)
| EvClose (host : string).

Record world : Type := mkWorld {
  files : gmap string bytes;
  clock_reads : nat;
  trace : list event;
}.

Definition emit (e : event) (w : world) : world :=
  mkWorld (files w) (clock_reads w) (trace w ++ [e]).

(** How [os.WriteFile] fails.  It opens the file with
    [O_WRONLY|O_CREATE|O_TRUNC], writes, and closes: an error at the open
    leaves the disk as it was; an error after it leaves the file created
    and truncated, holding the first [written] bytes of the data (all of
    it when only the close failed). *)
Inductive write_failure : Type :=
| OpenFailed (e : string)
| WriteFailed (e : string) (written : nat).

(** The collaborators.  Answers may depend on everything that happened so
    far, so each effectful one takes the current [world]; [Some e] and
    [Err e] are a non-nil error. *)
Record env : Type := mkEnv {
  (* encoding/json *)
  json_Unmarshal : bytes → result json.gomap;
  json_Decode : bytes → result json.gomap;
  json_Unmarshal_Keypair : bytes → result Keypair;
  json_Marshal_Keypair : Keypair → result bytes;
  (* time *)
  clock : nat → Z;
  RFC3339 : Z → string;
  (* os *)
  Getenv : string → string;
  stat_error : world → string → option string;
  read_error : world → string → option string;
  write_error : world → string → option write_failure;
  strconv_Atoi : string → result Z;
  (* crypto and the overlay *)
  GenerateKeyPair : world → result (bytes * bytes);
  libp2p_New : world → string → bytes → result string;
  NewGossipSub : world → Host → option string;
  AddrInfoFromString : string → result AddrInfo;
  Connect : world → AddrInfo → option string;
  Join : world → string → option string;
  Subscribe : world → string → option string;
  Publish : world → string → bytes → option string;
  Close : world → Host → option string;
  (* the tunnel *)
  http_Post : world → string → string → bytes → option string;
}.

(** How a computation ends: normally, by [log.Fatal] (the process exits),
    or by a run-time panic. *)
Inductive outcome (A : Type) : Type :=
| Done (a : A) (w : world)
| Fatal (w : world)
| Panic (w : world).
Arguments Done {A} a w.
Arguments Fatal {A} w.
Arguments Panic {A} w.

Definition M (A : Type) : Type := world → outcome A.

Definition ret {A} (a : A) : M A := λ w, Done a w.

Definition bind {A B} (c : M A) (k : A → M B) : M B :=
  λ w, match c w with
       | Done a w' => k a w'
       | Fatal w' => Fatal w'
       | Panic w' => Panic w'
       end.

Notation "'let*' x := c 'in' k" := (bind c (λ x, k))
  (at level 10, x pattern, c at level 100, k at level 200,
   format "'[v' 'let*'  x  :=  c  'in' '/' k ']'").
Notation "c ;; k" := (bind c (λ _, k))
  (at level 100, k at level 200, right associativity).

Definition ask {A} (f : world → A) : M A := λ w, Done (f w) w.
Definition tell (e : event) : M unit := λ w, Done tt (emit e w).

Definition final {A} (o : outcome A) : world :=
  match o with Done _ w | Fatal w | Panic w => w end.

(** ** The service, the controller and what they exchange *)

Record Libp2pNodeService : Type := mkService {
  did : string;
  keypair : Keypair;
  tunnelAPI : string;
  isGateway : bool;
  node : option Host;
  pubsub : option PubSub;
  subscribed : option Subscription;
  topic : option Topic;
  bootstrap : list string;
  nodePort : Z;
}.

Record Libp2pNodeController : Type := mkController {
  service : Libp2pNodeService;
}.

(** What the handler leaves in its [http.ResponseWriter]. *)
Record Response : Type := mkResponse {
  status : Z;
  header : gmap string string;
  body : bytes;
}.

(** What [s.subscribed.Next(ctx)] hands back: a message, or an error
    (the stream failed or the context was canceled). *)
Inductive delivery : Type :=
| Message (data : bytes)
| Failure (e : string).

(** How [handleIncomingMessages] ends on a finite run of deliveries: it
    returned (leaving [rest] unread), it is suspended in [Next] with
    nothing left to read, or it dereferenced a nil subscription. *)
Inductive loop_end : Type :=
| Returned (rest : list delivery) (w : world)
| Waiting (w : world)
| NilDeref (w : world).


(** ** A reference environment

    The theorems below hold for every [env].  To run the model, and to show
    that the assumptions of the theorems can be met, here is one concrete
    environment: a decoder for an ASCII subset of JSON, the JSON form of
    the keypair file, a clock, a key generator and an overlay whose
    answers depend on what happened before. *)
Module reference.

Import json.

Definition is_ws (c : ascii) : bool :=
  bool_decide (c = " "%char) || bool_decide (c = "009"%char)
  || bool_decide (c = "010"%char) || bool_decide (c = "013"%char).

Fixpoint skip_ws (s : string) : string :=
  match s with
  | String c rest => if is_ws c then skip_ws rest else s
  | EmptyString => s
  end.

Definition is_digit (c : ascii) : bool :=
  let n := Z.of_nat (nat_of_ascii c) in (48 <=? n) && (n <=? 57).

Fixpoint expect (lit s : string) : option string :=
  match lit, s with
  | EmptyString, _ => Some s
  | String a lit', String b s' => if bool_decide (a = b) then expect lit' s' else None
  | String _ _, EmptyString => None
  end.

Definition unescape (c : ascii) : option ascii :=
  if bool_decide (c = "034"%char) then Some "034"%char
  else if bool_decide (c = "092"%char) then Some "092"%char
  else if bool_decide (c = "/"%char) then Some "/"%char
  else if bool_decide (c = "n"%char) then Some "010"%char
  else if bool_decide (c = "r"%char) then Some "013"%char
  else if bool_decide (c = "t"%char) then Some "009"%char
  else if bool_decide (c = "b"%char) then Some "008"%char
  else if bool_decide (c = "f"%char) then Some "012"%char
  else None.

(** The characters of a string literal after its opening quote. *)
Fixpoint string_body (s : string) : option (string * string) :=
  match s with
  | EmptyString => None
  | String c rest =>
      if bool_decide (c = "034"%char) then Some (EmptyString, rest)
      else if bool_decide (c = "092"%char) then
        match rest with
        | String e rest' =>
            match unescape e, string_body rest' with
            | Some c', Some (body, rest'') => Some (String c' body, rest'')
            | _, _ => None
            end
        | EmptyString => None
        end
      else
        let n := Z.of_nat (nat_of_ascii c) in
        if (n <? 32) || (127 <? n) then None
        else match string_body rest with
             | Some (body, rest') => Some (String c body, rest')
             | None => None
             end
  end.

Fixpoint digits (s : string) : string * string :=
  match s with
  | String c rest =>
      if is_digit c then let '(ds, rest') := digits rest in (String c ds, rest')
      else (EmptyString, s)
  | EmptyString => (EmptyString, s)
  end.

(** An integer literal of at most fifteen digits: such a number is a
    float64 exactly and the encoder prints the same digits back. *)
Definition number (s : string) : option (string * string) :=
  let '(sign, s') :=
    match s with
    | String "-"%char rest => ("-", rest)
    | _ => (EmptyString, s)
    end in
  let '(ds, rest) := digits s' in
  let plain :=
    match ds with
    | EmptyString => false
    | String "0"%char (String _ _) => false
    | _ => bool_decide (String.length ds ≤ 15)%nat
    end in
  let stops :=
    match rest with
    | String c _ =>
        negb (bool_decide (c = "."%char) || bool_decide (c = "e"%char)
              || bool_decide (c = "E"%char))
    | EmptyString => true
    end in
  if plain && stops then Some (sign +:+ ds, rest) else None.

Fixpoint value_at (fuel : nat) (s : string) : option (value * string) :=
  match fuel with
  | O => None
  | S fuel' =>
      match skip_ws s with
      | EmptyString => None
      | String c rest as s' =>
          if bool_decide (c = "n"%char) then
            rest' ← expect "ull" rest; Some (VNil, rest')
          else if bool_decide (c = "t"%char) then
            rest' ← expect "rue" rest; Some (VBool true, rest')
          else if bool_decide (c = "f"%char) then
            rest' ← expect "alse" rest; Some (VBool false, rest')
          else if bool_decide (c = "034"%char) then
            '(str, rest') ← string_body rest; Some (VStr str, rest')
          else if bool_decide (c = "["%char) then
            match skip_ws rest with
            | String "]"%char rest' => Some (VArr [], rest')
            | _ => elements_at fuel' rest []
            end
          else if bool_decide (c = "{"%char) then
            match skip_ws rest with
            | String "}"%char rest' => Some (VMap ∅, rest')
            | _ => members_at fuel' rest ∅
            end
          else
            '(text, rest') ← number s'; Some (VNum text, rest')
      end
  end
with elements_at (fuel : nat) (s : string) (acc : list value)
  : option (value * string) :=
  match fuel with
  | O => None
  | S fuel' =>
      '(v, rest) ← value_at fuel' s;
      match skip_ws rest with
      | String c rest' =>
          if bool_decide (c = ","%char) then elements_at fuel' rest' (acc ++ [v])
          else if bool_decide (c = "]"%char) then Some (VArr (acc ++ [v]), rest')
          else None
      | EmptyString => None
      end
  end
with members_at (fuel : nat) (s : string) (acc : gmap string value)
  : option (value * string) :=
  match fuel with
  | O => None
  | S fuel' =>
      match skip_ws s with
      | String q rest =>
          if bool_decide (q = "034"%char) then
            '(key, rest1) ← string_body rest;
            match skip_ws rest1 with
            | String colon rest2 =>
                if bool_decide (colon = ":"%char) then
                  '(v, rest3) ← value_at fuel' rest2;
                  match skip_ws rest3 with
                  | String c rest4 =>
                      if bool_decide (c = ","%char) then
                        members_at fuel' rest4 (<[key := v]> acc)
                      else if bool_decide (c = "}"%char) then
                        Some (VMap (<[key := v]> acc), rest4)
                      else None
                  | EmptyString => None
                  end
                else None
            | EmptyString => None
            end
          else None
      | EmptyString => None
      end
  end.

Definition as_map (v : value) : result gomap :=
  match v with
  | VMap m => Ok (Some m)
  | VNil => Ok None
  | _ => Err "json: cannot unmarshal value into Go value of type map[string]interface {}"
  end.

(** [json.Unmarshal(data, &m)]: the whole input is one value. *)
Definition Unmarshal (data : bytes) : result gomap :=
  let s := Str data in
  match value_at (S (String.length s)) s with
  | Some (v, rest) =>
      match skip_ws rest with
      | EmptyString => as_map v
      | String _ _ => Err "invalid character after top-level value"
      end
  | None => Err "invalid character"
  end.

(** [json.NewDecoder(r).Decode(&m)]: the first value of the input. *)
Definition Decode (data : bytes) : result gomap :=
  let s := Str data in
  match value_at (S (String.length s)) s with
  | Some (v, _) => as_map v
  | None => Err "invalid character"
  end.

(** *** The keypair file: base64 for the byte fields, struct order for
    the members, [publicKey] left out when empty. *)

Definition b64_alphabet : string :=
  "ABCDEFGHIJKLMNOPQRSTUVWXYZabcdefghijklmnopqrstuvwxyz0123456789+/".

Definition b64_char (n : Z) : string :=
  match String.get (Z.to_nat n) b64_alphabet with
  | Some c => String c EmptyString
  | None => "?"
  end.

Fixpoint b64_encode (l : list Z) : string :=
  match l with
  | a :: b :: c :: rest =>
      b64_char (a / 4) +:+ b64_char ((a mod 4) * 16 + b / 16)
      +:+ b64_char ((b mod 16) * 4 + c / 64) +:+ b64_char (c mod 64)
      +:+ b64_encode rest
  | [a; b] =>
      b64_char (a / 4) +:+ b64_char ((a mod 4) * 16 + b / 16)
      +:+ b64_char ((b mod 16) * 4) +:+ "="
  | [a] => b64_char (a / 4) +:+ b64_char ((a mod 4) * 16) +:+ "=="
  | [] => EmptyString
  end.

Fixpoint b64_find (c : ascii) (alphabet : string) (i : Z) : option Z :=
  match alphabet with
  | String a rest => if bool_decide (a = c) then Some i else b64_find c rest (i + 1)
  | EmptyString => None
  end.

Definition b64_index (c : ascii) : option Z := b64_find c b64_alphabet 0.

Fixpoint b64_decode (s : string) : option (list Z) :=
  match s with
  | EmptyString => Some []
  | String a (String b (String c (String d rest))) =>
      ia ← b64_index a; ib ← b64_index b;
      if bool_decide (c = "="%char) then
        if bool_decide (d = "="%char) && bool_decide (rest = EmptyString)
        then Some [ia * 4 + ib / 16] else None
      else
        ic ← b64_index c;
        if bool_decide (d = "="%char) then
          if bool_decide (rest = EmptyString)
          then Some [ia * 4 + ib / 16; (ib mod 16) * 16 + ic / 4] else None
        else
          id ← b64_index d; tail ← b64_decode rest;
          Some (ia * 4 + ib / 16 :: (ib mod 16) * 16 + ic / 4
                :: (ic mod 4) * 64 + id :: tail)
  | _ => None
  end.

Definition to_bytes (l : list Z) : bytes := omap (λ b, Byte.of_N (Z.to_N b)) l.

Definition Marshal_Keypair (kp : Keypair) : result bytes :=
  let str s := dquote +:+ s +:+ dquote in
  let field k v := str k +:+ ":" +:+ v in
  Ok (B ("{" +:+ field "seed" (str (b64_encode (byte_val <$> Seed kp)))
         +:+ "," +:+ field "createdAt" (quote (CreatedAt kp))
         +:+ "," +:+ field "lastUsed" (quote (LastUsed kp))
         +:+ match PublicKey kp with
             | [] => EmptyString
             | pk => "," +:+ field "publicKey" (str (b64_encode (byte_val <$> pk)))
             end
         +:+ "}")).

Definition bytes_field (v : value) : result bytes :=
  match v with
  | VNil => Ok []
  | VStr s =>
      match b64_decode s with
      | Some l => Ok (to_bytes l)
      | None => Err "illegal base64 data"
      end
  | _ => Err "json: cannot unmarshal value into Go struct field of type []uint8"
  end.

Definition string_field (v : value) : result string :=
  match v with
  | VNil => Ok EmptyString
  | VStr s => Ok s
  | _ => Err "json: cannot unmarshal value into Go struct field of type string"
  end.

Definition Unmarshal_Keypair (data : bytes) : result Keypair :=
  match Unmarshal data with
  | Err e => Err e
  | Ok m =>
      match bytes_field (index m "seed"), string_field (index m "createdAt"),
            string_field (index m "lastUsed"), bytes_field (index m "publicKey") with
      | Ok seed, Ok created, Ok used, Ok pk => Ok (mkKeypair seed created used pk)
      | Err e, _, _, _ | _, Err e, _, _ | _, _, Err e, _ | _, _, _, Err e => Err e
      end
  end.

(** *** Time: seconds since the epoch, printed in UTC. *)

Definition pad (width : nat) (n : Z) : string :=
  let s := pretty n in
  String.concat EmptyString (replicate (width - String.length s) "0") +:+ s.

Definition RFC3339 (t : Z) : string :=
  let days := t / 86400 in
  let secs := t mod 86400 in
  let z := days + 719468 in
  let era := z / 146097 in
  let doe := z mod 146097 in
  let yoe := (doe - doe / 1460 + doe / 36524 - doe / 146096) / 365 in
  let doy := doe - (365 * yoe + yoe / 4 - yoe / 100) in
  let mp := (5 * doy + 2) / 153 in
  let d := doy - (153 * mp + 2) / 5 + 1 in
  let m := if mp <? 10 then mp + 3 else mp - 9 in
  let y := yoe + era * 400 + (if m <=? 2 then 1 else 0) in
  pad 4 y +:+ "-" +:+ pad 2 m +:+ "-" +:+ pad 2 d +:+ "T"
  +:+ pad 2 (secs / 3600) +:+ ":" +:+ pad 2 (secs mod 3600 / 60) +:+ ":"
  +:+ pad 2 (secs mod 60) +:+ "Z".

Definition clock (reads : nat) : Z := 1761915600 + 7 * Z.of_nat reads.

(** *** The process environment, keys and the overlay. *)

Definition environ : gmap string string :=
  {[ "HOME" := "/home/node";
     "API_PORT" := "8716";
     "NODE_PORT" := "15050";
     "BOOTSTRAP_ADDRS" :=
       "/ip4/10.0.0.1/tcp/4010/p2p/alpha,not-an-address,/ip4/10.0.0.2/tcp/4010/p2p/down" ]}.

Definition Getenv (key : string) : string := default EmptyString (environ !! key).

Fixpoint atoi (s : string) (acc : Z) : result Z :=
  match s with
  | EmptyString => Ok acc
  | String c rest =>
      if is_digit c then atoi rest (acc * 10 + Z.of_nat (nat_of_ascii c) - 48)
      else Err "invalid syntax"
  end.

Definition Atoi (s : string) : result Z :=
  match s with
  | EmptyString => Err "invalid syntax"
  | _ => atoi s 0
  end.

Definition generated (w : world) : nat :=
  length (List.filter (λ e, match e with EvKeyGen _ _ => true | _ => false end)
            (trace w)).

(** The n-th key pair drawn has the bytes n+1 and 160+n, 32 of each. *)
Definition GenerateKeyPair (w : world) : result (bytes * bytes) :=
  let n := Z.of_nat (generated w) in
  Ok (to_bytes (replicate 32 ((n + 1) mod 256)),
      to_bytes (replicate 32 ((n + 160) mod 256))).

Definition New (w : world) (listen : string) (priv : bytes) : result string :=
  Ok ("12D3KooW" +:+ base58.Encode (take 8 priv)).

(** [/ip4/<addr>/tcp/<port>/p2p/<id>]. *)
Definition AddrInfoFromString (addr : string) : result AddrInfo :=
  match strings_Split addr "/"%char with
  | [ _; ip4; host; tcp; port; p2p; id ] =>
      if bool_decide (ip4 = "ip4") && bool_decide (tcp = "tcp")
         && bool_decide (p2p = "p2p") && negb (bool_decide (id = EmptyString))
      then Ok (mkAddrInfo id ["/ip4/" +:+ host +:+ "/tcp/" +:+ port])
      else Err "failed to parse multiaddr"
  | _ => Err "failed to parse multiaddr"
  end.

(** The peer called [down] refuses every dial. *)
Definition Connect (w : world) (info : AddrInfo) : option string :=
  if bool_decide (ID info = "down") then Some "connection refused" else None.

(** The tunnel answers every other attempt only. *)
Definition Post (w : world) (url contentType : string) (body : bytes)
  : option string :=
  if Nat.even (length (trace w)) then None else Some "connection refused".

Definition make (publish : world → string → bytes → option string) : env :=
  mkEnv Unmarshal Decode Unmarshal_Keypair Marshal_Keypair
    clock RFC3339
    Getenv (λ _ _, None) (λ _ _, None) (λ _ _, None) Atoi
    GenerateKeyPair New (λ _ _, None) AddrInfoFromString Connect
    (λ _ _, None) (λ _ _, None) publish (λ _ _, None)
    Post.

(** An overlay that accepts what is published, and one that refuses. *)
Definition online : env := make (λ _ _ _, None).
Definition offline : env := make (λ _ _ _, Some "context deadline exceeded").

Definition fresh : world := mkWorld ∅ 0 [].

(** *** A node and its surroundings, for running the model. *)

Definition kp0 : Keypair :=
  mkKeypair (to_bytes (replicate 32 1)) "2025-10-31T13:00:00Z"
    "2025-10-31T13:00:07Z" (to_bytes (replicate 32 160)).

Definition tunnel : string := "http://localhost:8716/libp2p/message".

Definition overlay_host : Host :=
  mkHost "12D3KooWLUkzM5qLs3" (to_bytes (replicate 32 2)) "/ip4/0.0.0.0/tcp/15050".

(** A gateway after [InitNode]. *)
Definition gateway : Libp2pNodeService :=
  mkService "gateway" kp0 tunnel true (Some overlay_host) None
    (Some (mkSubscription "sight-message")) (Some (mkTopic "sight-message"))
    [] 15050.

Definition envelope (to : string) (payload : value) : bytes :=
  B (encode (VMap {[ "to" := VStr to; "payload" := payload ]})).

Definition order : value := VMap {[ "n" := VNum "1" ]}.
Definition for_gateway : bytes := envelope "gateway" order.
Definition malformed : bytes := B "{not json".
Definition for_other : bytes := envelope "did:sight:hoster:abc" (VStr "x").
Definition bare : bytes := B (encode (VMap {[ "to" := VStr "gateway" ]})).

Definition inbox : list bytes := [for_gateway; malformed; for_other; bare].

Definition request : gmap string value :=
  {[ "to" := VStr "did:sight:hoster:abc"; "foo" := VNum "1" ]}.

Definition key_path : string := "/home/node/.sightai/config/device-keypair.json".

Definition saved : bytes :=
  match Marshal_Keypair kp0 with Ok data => data | Err _ => [] end.

(** The disk after a first run, and a disk with a damaged file. *)
Definition stored : world := mkWorld {[ key_path := saved ]} 2 [].
Definition damaged : world := mkWorld {[ key_path := malformed ]} 0 [].

End reference.

(** ** Reading base58 text back

    The number a base58 text stands for; used to show that the identity
    text determines the public key. *)

Fixpoint b58_find (c : ascii) (alphabet : string) (i : Z) : Z :=
  match alphabet with
  | String a rest => if bool_decide (a = c) then i else b58_find c rest (i + 1)
  | EmptyString => 0
  end.

Definition b58_index (c : ascii) : Z := b58_find c base58.alphabet 0.

Fixpoint b58_value (acc : Z) (s : string) : Z :=
  match s with
  | EmptyString => acc
  | String c rest => b58_value (acc * 58 + b58_index c) rest
  end.

(** Whether the character [c] occurs in [s]. *)
Fixpoint contains (c : ascii) (s : string) : bool :=
  match s with
  | EmptyString => false
  | String a rest => bool_decide (a = c) || contains c rest
  end.

(** ** More surroundings for running the model *)
Module scenario.

Import json.

(** The reference environment with its process variables, the answer of
    [os.Stat] and the start of gossip replaced. *)
Definition env_with (getenv : string → string)
    (stat : world → string → option string)
    (gossip : world → Host → option string) : env :=
  mkEnv reference.Unmarshal reference.Decode reference.Unmarshal_Keypair
    reference.Marshal_Keypair reference.clock reference.RFC3339
    getenv stat (λ _ _, None) (λ _ _, None) reference.Atoi
    reference.GenerateKeyPair reference.New gossip
    reference.AddrInfoFromString reference.Connect
    (λ _ _, None) (λ _ _, None) (λ _ _ _, None) (λ _ _, None)
    reference.Post.

(** The reference environment with another clock and another answer of
    [os.WriteFile]. *)
Definition env_disk (clock : nat → Z)
    (write : world → string → option write_failure) : env :=
  mkEnv reference.Unmarshal reference.Decode reference.Unmarshal_Keypair
    reference.Marshal_Keypair clock reference.RFC3339
    reference.Getenv (λ _ _, None) (λ _ _, None) write reference.Atoi
    reference.GenerateKeyPair reference.New (λ _ _, None)
    reference.AddrInfoFromString reference.Connect
    (λ _ _, None) (λ _ _, None) (λ _ _ _, None) (λ _ _, None)
    reference.Post.

(** A clock that was set back: every reading is seven seconds before the
    one taken before it. *)
Definition rewinding : env :=
  env_disk (λ reads, 1761915600 - 7 * Z.of_nat reads) (λ _ _, None).

(** A disk that fills up five bytes into every write. *)
Definition disk_full : env :=
  env_disk reference.clock (λ _ _, Some (WriteFailed "no space left on device" 5)).

(** [os.Stat] is refused on every path. *)
Definition locked : env :=
  env_with reference.Getenv (λ _ _, Some "permission denied") (λ _ _, None).

(** Gossip cannot be started. *)
Definition no_gossip : env :=
  env_with reference.Getenv (λ _ _, None) (λ _ _, Some "failed to start gossipsub").

(** Only [HOME] is set. *)
Definition bare : env :=
  env_with (λ key, if bool_decide (key = "HOME") then "/home/node" else "")
    (λ _ _, None) (λ _ _, None).

(** A hoster after [InitNode], known under a short identity. *)
Definition hoster : Libp2pNodeService :=
  mkService "did:sight:hoster:abc" reference.kp0 reference.tunnel false
    (Some reference.overlay_host) None
    (Some (mkSubscription "sight-message")) (Some (mkTopic "sight-message"))
    [] 15050.

(** A request that names nobody. *)
Definition anonymous : gmap string value := {[ "foo" := VNum "1" ]}.

Definition key_a : bytes := reference.to_bytes (replicate 32 160).
Definition key_b : bytes := reference.to_bytes (replicate 31 160 ++ [161]).

(** Another node's keypair. *)
Definition kp_b : Keypair :=
  mkKeypair (reference.to_bytes (replicate 32 7)) "2025-10-31T13:00:00Z"
    "2025-10-31T13:00:07Z" key_b.

End scenario.

Section Program.

Context (E : env).

(** *** log, time, os *)

Definition log_Printf (line : string) : M unit := tell (EvLog line).

Definition log_Fatal {A} (line : string) : M A :=
  λ w, Fatal (emit (EvLog line) w).

Definition time_Now : M Z :=
  λ w, Done (clock E (clock_reads w))
            (mkWorld (files w) (S (clock_reads w)) (trace w)).

(** [os.Stat]: nil error when the file is there and can be examined. *)
Definition os_Stat (name : string) : M (option string) :=
  ask (λ w, match files w !! name with
            | Some _ => stat_error E w name
            | None => Some "no such file or directory"
            end).

Definition os_ReadFile (name : string) : M (result bytes) :=
  ask (λ w, match files w !! name, read_error E w name with
            | Some data, None => Ok data
            | Some _, Some e => Err e
            | None, _ => Err "no such file or directory"
            end).

(** [EvWriteFile] records a write that went through; a write that failed
    half way shows in [files] only. *)
Definition os_WriteFile (name : string) (data : bytes) : M (option string) :=
  λ w, match write_error E w name with
       | Some (OpenFailed e) => Done (Some e) w
       | Some (WriteFailed e written) =>
           Done (Some e)
             (mkWorld (<[name := take written data]> (files w))
                      (clock_reads w) (trace w))
       | None =>
           Done None (emit (EvWriteFile name data)
                       (mkWorld (<[name := data]> (files w))
                                (clock_reads w) (trace w)))
       end.

Definition os_MkdirAll (path : string) : M unit := tell (EvMkdirAll path).

(** *** libp2p_utils.go *)

Definition getDataDir : string :=
  let dir := Getenv E "SIGHTAI_DATA_DIR" in
  if bool_decide (dir ≠ "") then dir +:+ "/config"
  else Getenv E "HOME" +:+ "/.sightai/config".

Definition crypto_GenerateKeyPair : M (result (bytes * bytes)) :=
  λ w, match GenerateKeyPair E w with
       | Ok (priv, pub) => Done (Ok (priv, pub)) (emit (EvKeyGen priv pub) w)
       | Err e => Done (Err e) w
       end.

Definition with_LastUsed (kp : Keypair) (t : string) : Keypair :=
  mkKeypair (Seed kp) (CreatedAt kp) t (PublicKey kp).

Definition LoadOrGenerateKeypair : M Keypair :=
  let keyDir := getDataDir in
  let keyFile := keyDir +:+ "/device-keypair.json" in
  let* st := os_Stat keyFile in
  match st with
  | None =>
      let* rd := os_ReadFile keyFile in
      match rd with
      | Err e => log_Fatal ("Error reading keypair: " +:+ e)
      | Ok kpStr =>
          match json_Unmarshal_Keypair E kpStr with
          | Err e => log_Fatal ("Error unmarshalling keypair: " +:+ e)
          | Ok kp =>
              let* now := time_Now in
              let kp := with_LastUsed kp (RFC3339 E now) in
              match json_Marshal_Keypair E kp with
              | Err e => log_Fatal ("Error marshalling updated keypair: " +:+ e)
              | Ok kpStr =>
                  let* wr := os_WriteFile keyFile kpStr in
                  match wr with
                  | Some e => log_Fatal ("Error writing updated keypair: " +:+ e)
                  | None =>
                      log_Printf ("[KeyPair] Loaded from " +:+ keyFile) ;;
                      ret kp
                  end
              end
          end
      end
  | Some _ =>
      let* gen := crypto_GenerateKeyPair in
      match gen with
      | Err e => log_Fatal ("Error generating keypair: " +:+ e)
      | Ok (priv, pub) =>
          let* created := time_Now in
          let* used := time_Now in
          let kp := mkKeypair priv (RFC3339 E created) (RFC3339 E used) pub in
          os_MkdirAll keyDir ;;
          match json_Marshal_Keypair E kp with
          | Err e => log_Fatal ("Error marshalling keypair: " +:+ e)
          | Ok kpStr =>
              let* wr := os_WriteFile keyFile kpStr in
              match wr with
              | Some e => log_Fatal ("Error writing keypair to file: " +:+ e)
              | None =>
                  log_Printf ("[KeyPair] Generated new and saved to " +:+ keyFile) ;;
                  ret kp
              end
          end
      end
  end.

(** [CreateLibp2pNode]: the first loop keeps the addresses that parse,
    the second one dials each of them once. *)
Fixpoint parse_bootstrap (bootstrapList : list string) : M (list AddrInfo) :=
  match bootstrapList with
  | [] => ret []
  | addr :: rest =>
      match AddrInfoFromString E addr with
      | Err e =>
          log_Printf ("Invalid bootstrap addr: " +:+ addr +:+ " (" +:+ e +:+ ")") ;;
          parse_bootstrap rest
      | Ok info =>
          let* peerAddrs := parse_bootstrap rest in
          ret (info :: peerAddrs)
      end
  end.

Definition host_Connect (info : AddrInfo) : M (option string) :=
  λ w, Done (Connect E w info) (emit (EvConnect info) w).

Fixpoint connect_bootstrap (peerAddrs : list AddrInfo) : M unit :=
  match peerAddrs with
  | [] => ret tt
  | info :: rest =>
      let* err := host_Connect info in
      match err with
      | Some e => log_Printf ("Failed to connect to " +:+ ID info +:+ ": " +:+ e)
      | None => log_Printf ("Connected to bootstrap peer: " +:+ ID info)
      end ;;
      connect_bootstrap rest
  end.

Definition new_host (listen : string) (priv : bytes) : M (result Host) :=
  λ w, match libp2p_New E w listen priv with
       | Ok id => Done (Ok (mkHost id priv listen)) (emit (EvHostNew listen priv) w)
       | Err e => Done (Err e) w
       end.

Definition new_gossipsub (host : Host) : M (result PubSub) :=
  λ w, match NewGossipSub E w host with
       | None => Done (Ok (mkPubSub host)) (emit (EvGossipSub (host_ID host)) w)
       | Some e => Done (Err e) w
       end.

Definition CreateLibp2pNode (port : Z) (bootstrapList : list string)
  : M (Host * PubSub) :=
  let* gen := crypto_GenerateKeyPair in
  match gen with
  | Err e => log_Fatal ("Failed to generate keypair: " +:+ e)
  | Ok (priv, pub) =>
      let* created := new_host ("/ip4/0.0.0.0/tcp/" +:+ pretty port) priv in
      match created with
      | Err e => log_Fatal ("Failed to create libp2p host: " +:+ e)
      | Ok host =>
          log_Printf ("Libp2p Host created with peer ID: " +:+ host_ID host) ;;
          let* gs := new_gossipsub host in
          match gs with
          | Err e => log_Fatal ("Failed to create pubsub service: " +:+ e)
          | Ok pubsubService =>
              (if bool_decide (0 < length bootstrapList)%nat then
                 let* peerAddrs := parse_bootstrap bootstrapList in
                 connect_bootstrap peerAddrs
               else ret tt) ;;
              ret (host, pubsubService)
          end
      end
  end.

(** *** node_service.go *)

Definition NewLibp2pNodeService (kp : Keypair) (port : Z) (tunnelAPI : string)
    (isGateway : bool) (bootstrap : list string) : Libp2pNodeService :=
  let did := "gateway" in
  let did := if negb isGateway then ToSightDID (PublicKey kp) else did in
  mkService did kp tunnelAPI isGateway None None None None bootstrap port.

Definition ps_Join (name : string) : M (result Topic) :=
  λ w, match Join E w name with
       | None => Done (Ok (mkTopic name)) (emit (EvJoin name) w)
       | Some e => Done (Err e) w
       end.

Definition topic_Subscribe (t : Topic) : M (result Subscription) :=
  λ w, match Subscribe E w (topic_name t) with
       | None => Done (Ok (mkSubscription (topic_name t)))
                      (emit (EvSubscribe (topic_name t)) w)
       | Some e => Done (Err e) w
       end.

(** [InitNode] fills in the host, the topic and the subscription of [s];
    the service as it stands when [go s.handleIncomingMessages(ctx)] is
    reached is the result.  The inbound loop itself is
    [handleIncomingMessages] below. *)
Definition InitNode (s : Libp2pNodeService) : M Libp2pNodeService :=
  let* created := CreateLibp2pNode (nodePort s) (bootstrap s) in
  let '(host, ps) := created in
  let s := mkService (did s) (keypair s) (tunnelAPI s) (isGateway s)
             (Some host) (pubsub s) (subscribed s) (topic s)
             (bootstrap s) (nodePort s) in
  let* joined := ps_Join "sight-message" in
  match joined with
  | Err e => log_Fatal ("Failed to join topic: " +:+ e)
  | Ok tp =>
      let s := mkService (did s) (keypair s) (tunnelAPI s) (isGateway s)
                 (node s) (pubsub s) (subscribed s) (Some tp)
                 (bootstrap s) (nodePort s) in
      let* sub := topic_Subscribe tp in
      match sub with
      | Err e => log_Fatal ("Failed to subscribe to topic: " +:+ e)
      | Ok sb =>
          ret (mkService (did s) (keypair s) (tunnelAPI s) (isGateway s)
                 (node s) (pubsub s) (Some sb) (topic s)
                 (bootstrap s) (nodePort s))
      end
  end.

Definition post (url contentType : string) (body : bytes) : M (option string) :=
  λ w, Done (http_Post E w url contentType body)
            (emit (EvPost url contentType body) w).

(** The body of the [for] loop once [Next] has delivered [data]; every
    path through it ends in [continue] or falls off the end. *)
Definition handle_message (s : Libp2pNodeService) (data : bytes) : M unit :=
  match json_Unmarshal E data with
  | Err e => log_Printf ("Invalid message format: " +:+ e)
  | Ok payload =>
      if negb (json.eq_string (json.index payload "to") (did s)) then ret tt
      else
        match json.Marshal (json.index payload "payload") with
        | Err e => log_Printf ("Error marshalling payload: " +:+ e)
        | Ok buf =>
            let* err := post (tunnelAPI s) "application/json" buf in
            match err with
            | Some e => log_Printf ("Forward error: " +:+ e)
            | None => ret tt
            end
        end
  end.

Fixpoint handleIncomingMessages (s : Libp2pNodeService)
    (stream : list delivery) (w : world) : loop_end :=
  match subscribed s with
  | None => NilDeref w
  | Some _ =>
      match stream with
      | [] => Waiting w
      | Failure e :: rest => Returned rest (emit (EvLog ("PubSub error: " +:+ e)) w)
      | Message data :: rest =>
          handleIncomingMessages s rest (final (handle_message s data w))
      end
  end.

Definition topic_Publish (t : Topic) (data : bytes) : M (option string) :=
  λ w, Done (Publish E w (topic_name t) data)
            (emit (EvPublish (topic_name t) data) w).

Definition HandleOutgoingMessage (s : Libp2pNodeService) (msg : json.gomap)
  : M unit :=
  match json.Marshal (json.iface msg) with
  | Err e => log_Printf ("Error marshalling outgoing message: " +:+ e)
  | Ok data =>
      match topic s with
      | None => Panic
      | Some t =>
          let* err := topic_Publish t data in
          match err with
          | Some e => log_Printf ("Error publishing message: " +:+ e)
          | None => ret tt
          end
      end
  end.

Definition Stop (s : Libp2pNodeService) : M unit :=
  match node s with
  | None => Panic
  | Some host =>
      λ w, match Close E w host with
           | Some e =>
               Done tt (emit (EvLog ("Error stopping node: " +:+ e))
                          (emit (EvClose (host_ID host)) w))
           | None => Done tt (emit (EvClose (host_ID host)) w)
           end
  end.

(** The copies that stand next to [main]: the encoder's error is dropped
    instead of being tested, and the log lines differ. *)
Definition handle_message_main (s : Libp2pNodeService) (data : bytes) : M unit :=
  match json_Unmarshal E data with
  | Err e => log_Printf ("Invalid message: " +:+ e)
  | Ok payload =>
      if negb (json.eq_string (json.index payload "to") (did s)) then ret tt
      else
        let buf := match json.Marshal (json.index payload "payload") with
                   | Ok buf => buf
                   | Err _ => []
                   end in
        let* err := post (tunnelAPI s) "application/json" buf in
        match err with
        | Some e => log_Printf ("Forward error: " +:+ e)
        | None => ret tt
        end
  end.

Definition HandleOutgoingMessage_main (s : Libp2pNodeService) (msg : json.gomap)
  : M unit :=
  let data := match json.Marshal (json.iface msg) with
              | Ok data => data
              | Err _ => []
              end in
  match topic s with
  | None => Panic
  | Some t => topic_Publish t data ;; ret tt
  end.

(** *** The controller and [main] *)

Definition NewLibp2pNodeController (service : Libp2pNodeService)
  : Libp2pNodeController := mkController service.

(** [http.Error(w, msg, code)]. *)
Definition http_Error (msg : string) (code : Z) : Response :=
  mkResponse code
    {[ "Content-Type" := "text/plain; charset=utf-8";
       "X-Content-Type-Options" := "nosniff" ]}
    (B (msg +:+ String "010"%char EmptyString)).

Definition SendHandler (c : Libp2pNodeController) (r_Body : bytes) : M Response :=
  match json_Decode E r_Body with
  | Err _ => ret (http_Error "Invalid JSON" 400)
  | Ok tunnelMsg =>
      let libp2pMsg : gmap string json.value :=
        {[ "to" := json.index tunnelMsg "to";
           "payload" := json.iface tunnelMsg ]} in
      HandleOutgoingMessage (service c) (Some libp2pMsg) ;;
      ret (mkResponse 200 {[ "Content-Type" := "application/json" ]}
             (json.Encode (json.VMap {[ "status" := json.VStr "ok" ]})))
  end.

Definition getEnvInt (key : string) (defaultVal : Z) : Z :=
  let value := Getenv E key in
  if bool_decide (value = "") then defaultVal
  else match strconv_Atoi E value with
       | Err _ => defaultVal
       | Ok intVal => intVal
       end.

(** [main] up to the point where the HTTP server is started. *)
Definition main_startup : M Libp2pNodeController :=
  let* keypair := LoadOrGenerateKeypair in
  let isGateway := bool_decide (Getenv E "IS_GATEWAY" = "1") in
  let nodePort := getEnvInt "NODE_PORT" 15050 in
  let libp2pPort := getEnvInt "LIBP2P_PORT" 4010 in
  let bootstrap := strings_Split (Getenv E "BOOTSTRAP_ADDRS") ","%char in
  let tunnelAPI := "http://localhost:" +:+ Getenv E "API_PORT" +:+ "/libp2p/message" in
  let service := NewLibp2pNodeService keypair nodePort tunnelAPI isGateway bootstrap in
  let* service := InitNode service in
  ret (NewLibp2pNodeController service).

(** ** Observations on a trace *)

Definition post_of (e : event) : option (string * string * bytes) :=
  match e with EvPost url ct body => Some (url, ct, body) | _ => None end.

Definition publish_of (e : event) : option (string * bytes) :=
  match e with EvPublish name data => Some (name, data) | _ => None end.

Definition connect_of (e : event) : option AddrInfo :=
  match e with EvConnect info => Some info | _ => None end.

Definition keygen_of (e : event) : option (bytes * bytes) :=
  match e with EvKeyGen priv pub => Some (priv, pub) | _ => None end.

Definition write_of (e : event) : option (string * bytes) :=
  match e with EvWriteFile path data => Some (path, data) | _ => None end.

Definition posts (w : world) := omap post_of (trace w).
Definition publishes (w : world) := omap publish_of (trace w).
Definition connects (w : world) := omap connect_of (trace w).
Definition keygens (w : world) := omap keygen_of (trace w).
Definition writes (w : world) := omap write_of (trace w).

Definition world_of (r : loop_end) : world :=
  match r with Returned _ w | Waiting w | NilDeref w => w end.

(** The inbound messages one after the other, as the loop sees them. *)
Definition run_messages (s : Libp2pNodeService) (msgs : list bytes) (w : world)
  : world :=
  fold_left (λ w data, final (handle_message s data w)) msgs w.

(** The claim's words: a message "decodes to an envelope whose [to] field
    is exactly this node's identity", and the inner payload re-encoded. *)
Definition addressed_to (s : Libp2pNodeService) (data : bytes) : bool :=
  match json_Unmarshal E data with
  | Ok envelope => json.eq_string (json.index envelope "to") (did s)
  | Err _ => false
  end.

Definition inner_payload (data : bytes) : bytes :=
  match json_Unmarshal E data with
  | Ok envelope => B (json.encode (json.index envelope "payload"))
  | Err _ => []
  end.

Definition tunnel_call (s : Libp2pNodeService) (data : bytes)
  : string * string * bytes :=
  (tunnelAPI s, "application/json", inner_payload data).

(** The file [LoadOrGenerateKeypair] reads and writes. *)
Definition keyFile : string := getDataDir +:+ "/device-keypair.json".

(** The spec's [derive(publicKey, isGateway)]. *)
Definition derive (publicKey : bytes) (isGateway : bool) : string :=
  if isGateway then "gateway"
  else "did:sight:hoster:" +:+ base58.Encode ([xed; x01] ++ publicKey).

(** The bootstrap addresses that parse, in the order configured. *)
Definition parsed (bootstrapList : list string) : list AddrInfo :=
  omap (λ addr, match AddrInfoFromString E addr with
                | Ok info => Some info
                | Err _ => None
                end) bootstrapList.

(** The claim's words: the node holds no key pair besides its [Keypair],
    so the key its overlay host runs under is that keypair's seed. *)
Definition sole_keypair (s : Libp2pNodeService) : Prop :=
  ∀ host, node s = Some host → host_identity host = Seed (keypair s).

(** The keypair a first start makes in world [w] from the generated key:
    [createdAt] and [lastUsed] are two clock readings, one after the
    other. *)
Definition generated_keypair (w : world) (priv pub : bytes) : Keypair :=
  mkKeypair priv (RFC3339 E (clock E (clock_reads w)))
    (RFC3339 E (clock E (S (clock_reads w)))) pub.

(** The log lines [CreateLibp2pNode] writes for the addresses that do not
    parse, in the order configured. *)
Definition invalid_lines (bootstrapList : list string) : list string :=
  omap (λ addr, match AddrInfoFromString E addr with
                | Ok _ => None
                | Err e => Some ("Invalid bootstrap addr: " +:+ addr
                                 +:+ " (" +:+ e +:+ ")")
                end) bootstrapList.

(** A dial and the one log line that reports how it went. *)
Definition dial_events (d : AddrInfo * string) : list event :=
  [EvConnect d.1; EvLog d.2].

Definition log_or_post (e : event) : Prop :=
  match e with
  | EvLog _ | EvPost _ _ _ => True
  | _ => False
  end.

Definition log_or_publish (e : event) : Prop :=
  match e with
  | EvLog _ | EvPublish _ _ => True
  | _ => False
  end.

(** A run of messages through the copy of the loop body next to [main]. *)
Definition run_messages_main (s : Libp2pNodeService) (msgs : list bytes)
    (w : world) : world :=
  fold_left (λ w data, final (handle_message_main s data w)) msgs w.

(** The claim's words for the timestamp of a load: read as instants, the
    [lastUsed] of the returned keypair [kp'] is not earlier than that of
    the saved keypair [kp]. *)
Definition lastUsed_not_earlier (kp kp' : Keypair) : Prop :=
  ∀ t0 t1, LastUsed kp = RFC3339 E t0 → LastUsed kp' = RFC3339 E t1 → t0 ≤ t1.

(** ** Basic facts *)

Lemma trace_emit e w : trace (emit e w) = trace w ++ [e].
Proof. reflexivity. Qed.

Lemma files_emit e w : files (emit e w) = files w.
Proof. reflexivity. Qed.

Lemma posts_emit e w : posts (emit e w) = posts w ++ from_option (λ p, [p]) [] (post_of e).
Proof.
  unfold posts. rewrite trace_emit, omap_app. simpl.
  by destruct (post_of e).
Qed.

Lemma posts_log line w : posts (emit (EvLog line) w) = posts w.
Proof. rewrite posts_emit. simpl. by rewrite app_nil_r. Qed.

Lemma posts_post url ct b w :
  posts (emit (EvPost url ct b) w) = posts w ++ [(url, ct, b)].
Proof. by rewrite posts_emit. Qed.

(** No path through the loop body ends the process. *)
Lemma handle_message_done s data w :
  ∃ w', handle_message s data w = Done tt w'.
Proof.
  unfold handle_message.
  destruct (json_Unmarshal E data) as [envelope|e]; [|by eexists].
  destruct (json.eq_string _ _); simpl; [|by eexists].
  unfold bind, post.
  destruct (http_Post E w _ _ _); by eexists.
Qed.

Lemma handle_message_posts s data w :
  posts (final (handle_message s data w)) =
  posts w ++ (if addressed_to s data then [tunnel_call s data] else []).
Proof.
  unfold handle_message, addressed_to, tunnel_call, inner_payload.
  destruct (json_Unmarshal E data) as [envelope|e]; simpl.
  - destruct (json.eq_string _ _); simpl; [|by rewrite app_nil_r].
    unfold bind, post.
    destruct (http_Post E w _ _ _); simpl;
      by rewrite ?posts_log, posts_post.
  - by rewrite posts_log, app_nil_r.
Qed.

Lemma run_messages_posts s msgs w :
  posts (run_messages s msgs w) =
  posts w ++ (tunnel_call s <$> List.filter (addressed_to s) msgs).
Proof.
  revert w. induction msgs as [|data msgs IH]; intros w; simpl.
  - by rewrite app_nil_r.
  - unfold run_messages in *. simpl. rewrite IH, handle_message_posts.
    rewrite <- app_assoc. f_equal.
    by destruct (addressed_to s data).
Qed.

Lemma loop_messages s sb msgs tail w :
  subscribed s = Some sb →
  handleIncomingMessages s ((Message <$> msgs) ++ tail) w =
  handleIncomingMessages s tail (run_messages s msgs w).
Proof.
  intros Hsub. revert w.
  induction msgs as [|data msgs IH]; intros w; [done|].
  simpl. rewrite Hsub. apply IH.
Qed.

Lemma loop_waiting s sb msgs w :
  subscribed s = Some sb →
  handleIncomingMessages s (Message <$> msgs) w = Waiting (run_messages s msgs w).
Proof.
  intros Hsub.
  rewrite <- (app_nil_r (Message <$> msgs)), (loop_messages _ sb) by done.
  simpl. by rewrite Hsub.
Qed.

Lemma loop_returned_inv s stream w rest w' :
  handleIncomingMessages s stream w = Returned rest w' →
  ∃ msgs e, stream = (Message <$> msgs) ++ Failure e :: rest.
Proof.
  revert w. induction stream as [|d stream IH]; intros w; simpl.
  - by destruct (subscribed s).
  - destruct (subscribed s); [|done].
    destruct d as [data|e].
    + intros H. apply IH in H as (msgs & e & ->).
      by exists (data :: msgs), e.
    + intros [= <- _]. by exists [], e.
Qed.

(** ** Identity derivation *)

(** C4. Identity derivation is a function of the public key and the
    gateway flag alone: the service built for a gateway has the literal
    identity gateway whatever the key is, and otherwise the identity is the
    namespace prefix followed by the base58 text of the bytes 0xed 0x01 and
    the raw public key.  No other field of the keypair, no other argument
    and no state of the world enters the result. *)
Theorem identity_derivation (kp : Keypair) (port : Z) (api : string)
    (gw : bool) (peers : list string) :
  did (NewLibp2pNodeService kp port api true peers) = "gateway"
  ∧ did (NewLibp2pNodeService kp port api false peers)
    = "did:sight:hoster:" +:+ base58.Encode (xed :: x01 :: PublicKey kp)
  ∧ ToSightDID (PublicKey kp)
    = "did:sight:hoster:" +:+ base58.Encode (xed :: x01 :: PublicKey kp)
  ∧ did (NewLibp2pNodeService kp port api gw peers) = derive (PublicKey kp) gw.
Proof.
  repeat split; try reflexivity.
  by destruct gw.
Qed.

(** ** The inbound loop *)

(** C1. Of the messages of a finite stream, exactly those that decode to
    an envelope addressed to this node are posted to the tunnel URL, one
    POST each, in the order received; a message that is not addressed to
    this node adds no tunnel call. *)
Theorem inbound_filtering (s : Libp2pNodeService) (sb : Subscription)
    (msgs : list bytes) (w : world) :
  subscribed s = Some sb →
  let w' := world_of (handleIncomingMessages s (Message <$> msgs) w) in
  let matching := List.filter (addressed_to s) msgs in
  posts w' = posts w ++ (tunnel_call s <$> matching)
  ∧ length (posts w') = (length (posts w) + length matching)%nat
  ∧ (∀ data w0, addressed_to s data = false →
       posts (final (handle_message s data w0)) = posts w0).
Proof.
  intros Hsub. simpl.
  rewrite (loop_waiting s sb) by done. simpl.
  rewrite run_messages_posts. split_and!.
  - done.
  - by rewrite length_app, length_fmap.
  - intros data w0 Hno. rewrite handle_message_posts, Hno. apply app_nil_r.
Qed.

(** C7. Messages never end the loop: after any run of messages, whatever
    happened to each of them, the loop is back in [Next]; every round of the
    body ends normally, so the next message is pulled.  The loop returns
    exactly when [Next] reports an error, and what follows in the stream is
    left unread. *)
Theorem inbound_loop_exit (s : Libp2pNodeService) (sb : Subscription)
    (msgs : list bytes) (w : world) :
  subscribed s = Some sb →
  handleIncomingMessages s (Message <$> msgs) w
    = Waiting (run_messages s msgs w)
  ∧ (∀ data w0, ∃ w1, handle_message s data w0 = Done tt w1)
  ∧ (∀ data rest w0,
       handleIncomingMessages s (Message data :: rest) w0
       = handleIncomingMessages s rest (final (handle_message s data w0)))
  ∧ (∀ e rest,
       handleIncomingMessages s ((Message <$> msgs) ++ Failure e :: rest) w
       = Returned rest (emit (EvLog ("PubSub error: " +:+ e))
                          (run_messages s msgs w)))
  ∧ (∀ stream w0 rest w1,
       handleIncomingMessages s stream w0 = Returned rest w1 →
       ∃ before e, stream = (Message <$> before) ++ Failure e :: rest).
Proof.
  intros Hsub. split_and!.
  - by apply (loop_waiting s sb).
  - intros. apply handle_message_done.
  - intros. simpl. by rewrite Hsub.
  - intros. rewrite (loop_messages s sb) by done. simpl. by rewrite Hsub.
  - intros stream w0 rest w1. apply loop_returned_inv.
Qed.

(** C10. A message that decodes to an object addressed to this node but
    without a payload key is not skipped: the body of the loop posts the
    JSON literal null to the tunnel URL. *)
Theorem missing_payload_posts_null (s : Libp2pNodeService) (data : bytes)
    (m : gmap string json.value) (w : world) :
  json_Unmarshal E data = Ok (Some m) →
  m !! "to" = Some (json.VStr (did s)) →
  m !! "payload" = None →
  ∃ w', handle_message s data w = Done tt w'
        ∧ posts w' = posts w ++ [(tunnelAPI s, "application/json", B "null")].
Proof.
  intros Hdec Hto Hpay.
  destruct (handle_message_done s data w) as [w' Hdone].
  exists w'. split; [done|].
  pose proof (handle_message_posts s data w) as Hposts.
  rewrite Hdone in Hposts. simpl in Hposts. rewrite Hposts.
  unfold addressed_to, tunnel_call, inner_payload.
  rewrite Hdec. simpl. rewrite Hto, Hpay. simpl.
  by rewrite bool_decide_eq_true_2.
Qed.

(** ** The outbound path and the control surface *)

Lemma publishes_emit e w :
  publishes (emit e w) = publishes w ++ from_option (λ p, [p]) [] (publish_of e).
Proof.
  unfold publishes. rewrite trace_emit, omap_app. simpl.
  by destruct (publish_of e).
Qed.

(** Publishing one message: exactly one [Publish] call carrying the encoded
    map; the only thing its outcome decides is whether a line is logged. *)
Lemma HandleOutgoingMessage_spec s t msg w :
  topic s = Some t →
  ∃ w', HandleOutgoingMessage s msg w = Done tt w'
        ∧ publishes w' = publishes w ++ [(topic_name t, B (json.encode (json.iface msg)))]
        ∧ files w' = files w.
Proof.
  intros Ht. unfold HandleOutgoingMessage, json.Marshal. rewrite Ht.
  unfold bind, topic_Publish.
  destruct (Publish E w _ _); simpl; eexists; split_and!; try done;
    by rewrite ?publishes_emit; simpl; rewrite ?app_nil_r.
Qed.

(** The copies next to [main] make the same tunnel calls and publish the
    same bytes as the functions of the service proper. *)
Lemma handle_message_main_posts s data w :
  posts (final (handle_message_main s data w))
  = posts (final (handle_message s data w)).
Proof.
  rewrite handle_message_posts.
  unfold handle_message_main, addressed_to, tunnel_call, inner_payload.
  destruct (json_Unmarshal E data) as [envelope|e]; simpl.
  - destruct (json.eq_string _ _); simpl; [|by rewrite app_nil_r].
    unfold bind, post.
    destruct (http_Post E w _ _ _); simpl;
      by rewrite ?posts_log, posts_post.
  - by rewrite posts_log, app_nil_r.
Qed.

Lemma HandleOutgoingMessage_main_publishes s msg w :
  publishes (final (HandleOutgoingMessage_main s msg w))
  = publishes (final (HandleOutgoingMessage s msg w)).
Proof.
  unfold HandleOutgoingMessage_main, HandleOutgoingMessage, json.Marshal.
  destruct (topic s) as [t|]; [|done].
  unfold bind, topic_Publish, log_Printf, tell, ret.
  destruct (Publish E w _ _); simpl; [|done].
  by rewrite (publishes_emit (EvLog _)), app_nil_r.
Qed.

(** C2. For a request that the control surface decoded, exactly one
    message is published on the service's topic; it is the serialization of
    a map with the two keys to and payload, where to holds the request's own
    to entry and payload holds the whole request.  For the request with to
    = did:sight:hoster:abc and foo = 1 this is the envelope with that to and
    with the request itself, to and foo included, as payload. *)
Theorem outbound_envelope (c : Libp2pNodeController) (t : Topic)
    (r_Body : bytes) (request : json.gomap) (w : world) :
  topic (service c) = Some t →
  json_Decode E r_Body = Ok request →
  ∃ (envelope : gmap string json.value) (resp : Response) (w' : world),
    SendHandler c r_Body w = Done resp w'
    ∧ publishes w' = publishes w ++ [(topic_name t, B (json.encode (json.VMap envelope)))]
    ∧ json.Marshal (json.VMap envelope) = Ok (B (json.encode (json.VMap envelope)))
    ∧ envelope !! "to" = Some (json.index request "to")
    ∧ envelope !! "payload" = Some (json.iface request)
    ∧ dom envelope = {[ "to"; "payload" ]}
    ∧ (request = Some {[ "to" := json.VStr "did:sight:hoster:abc";
                         "foo" := json.VNum "1" ]} →
       envelope = {[ "to" := json.VStr "did:sight:hoster:abc";
                     "payload" := json.VMap
                        {[ "to" := json.VStr "did:sight:hoster:abc";
                           "foo" := json.VNum "1" ]} ]}).
Proof.
  intros Ht Hdec.
  exists {[ "to" := json.index request "to"; "payload" := json.iface request ]}.
  unfold SendHandler. rewrite Hdec. unfold bind.
  destruct (HandleOutgoingMessage_spec (service c) t
              (Some {[ "to" := json.index request "to";
                       "payload" := json.iface request ]}) w Ht)
    as (w1 & -> & Hpub & _).
  eexists _, w1. split; [reflexivity|].
  split_and!; [done..|].
  by intros ->.
Qed.

(** C3. A body that does not decode is answered with status 400 and
    nothing is published.  A body that decodes is answered with status 200,
    content type application/json and the encoding of the object with the
    single member status = ok, whatever [Publish] returned. *)
Theorem send_handler_contract (c : Libp2pNodeController) (t : Topic)
    (r_Body : bytes) (w : world) :
  topic (service c) = Some t →
  (∀ e, json_Decode E r_Body = Err e →
     SendHandler c r_Body w = Done (http_Error "Invalid JSON" 400) w
     ∧ status (http_Error "Invalid JSON" 400) = 400)
  ∧ (∀ request, json_Decode E r_Body = Ok request →
       ∃ resp w', SendHandler c r_Body w = Done resp w'
         ∧ status resp = 200
         ∧ header resp !! "Content-Type" = Some "application/json"
         ∧ body resp = json.Encode (json.VMap {[ "status" := json.VStr "ok" ]})
         ∧ Str (body resp)
           = "{" +:+ json.dquote +:+ "status" +:+ json.dquote +:+ ":"
                 +:+ json.dquote +:+ "ok" +:+ json.dquote +:+ "}"
                 +:+ String "010"%char EmptyString).
Proof.
  intros Ht. split.
  - intros e Hdec. unfold SendHandler. by rewrite Hdec.
  - intros request Hdec. unfold SendHandler. rewrite Hdec. unfold bind.
    destruct (HandleOutgoingMessage_spec (service c) t
                (Some {[ "to" := json.index request "to";
                         "payload" := json.iface request ]}) w Ht)
      as (w1 & -> & _).
    eexists _, _. split; [reflexivity|]. simpl. split_and!; try done.
Qed.

(** ** The keypair store *)

Lemma omap_emit {A} (f : event → option A) e w :
  omap f (trace (emit e w)) = omap f (trace w) ++ from_option (λ x, [x]) [] (f e).
Proof. rewrite trace_emit, omap_app. simpl. by destruct (f e). Qed.

(** C5, as the code has it.  When the keypair file holds what a save of
    [kp] writes, and the decoder reads that back as [kp], a load returns a
    keypair with the seed, createdAt and publicKey of [kp] and with
    lastUsed set to the one clock reading the load takes, whatever the
    original lastUsed was: the two are not compared.  Before the load
    returns the file has been rewritten with the encoding of the returned
    keypair.  No key is generated on this path. *)
Theorem keypair_load_refreshes_lastUsed (kp : Keypair) (saved rewritten : bytes)
    (w : world) :
  let now := clock E (clock_reads w) in
  json_Marshal_Keypair E kp = Ok saved →
  json_Unmarshal_Keypair E saved = Ok kp →
  files w !! keyFile = Some saved →
  stat_error E w keyFile = None →
  read_error E w keyFile = None →
  json_Marshal_Keypair E
    (mkKeypair (Seed kp) (CreatedAt kp) (RFC3339 E now) (PublicKey kp))
  = Ok rewritten →
  (∀ w0, write_error E w0 keyFile = None) →
  ∃ kp' w', LoadOrGenerateKeypair w = Done kp' w'
    ∧ Seed kp' = Seed kp
    ∧ CreatedAt kp' = CreatedAt kp
    ∧ PublicKey kp' = PublicKey kp
    ∧ LastUsed kp' = RFC3339 E now
    ∧ json_Marshal_Keypair E kp' = Ok rewritten
    ∧ files w' !! keyFile = Some rewritten
    ∧ writes w' = writes w ++ [(keyFile, rewritten)]
    ∧ keygens w' = keygens w
    ∧ clock_reads w' = S (clock_reads w).
Proof.
  intros now _ Hdec Hfile Hstat Hread Henc Hwrite.
  unfold LoadOrGenerateKeypair, bind, os_Stat, os_ReadFile, os_WriteFile,
    time_Now, ask, log_Printf, tell, ret.
  fold keyFile. rewrite Hfile, Hstat. simpl. rewrite Hfile, Hread, Hdec. simpl.
  fold now.
  assert (json_Marshal_Keypair E (with_LastUsed kp (RFC3339 E now)) = Ok rewritten)
    as Henc' by exact Henc.
  rewrite Henc'. simpl. rewrite Hwrite.
  eexists _, _. split; [reflexivity|].
  split_and!; try done.
  - simpl. apply lookup_insert_eq.
  - unfold writes. by rewrite !omap_emit, app_nil_r.
  - unfold keygens. by rewrite !omap_emit, !app_nil_r.
Qed.

(** C6. A keypair file that is present and readable but does not decode
    ends the process in [log.Fatal]: the load, and with it the start of the
    node, is fatal; no key is generated, nothing is written and the file is
    left as it was. *)
Theorem corrupt_keypair_is_fatal (data : bytes) (e : string) (w : world) :
  files w !! keyFile = Some data →
  stat_error E w keyFile = None →
  read_error E w keyFile = None →
  json_Unmarshal_Keypair E data = Err e →
  ∃ w', LoadOrGenerateKeypair w = Fatal w'
    ∧ main_startup w = Fatal w'
    ∧ trace w' = trace w ++ [EvLog ("Error unmarshalling keypair: " +:+ e)]
    ∧ files w' = files w
    ∧ keygens w' = keygens w
    ∧ writes w' = writes w.
Proof.
  intros Hfile Hstat Hread Hdec.
  assert (LoadOrGenerateKeypair w
          = Fatal (emit (EvLog ("Error unmarshalling keypair: " +:+ e)) w)) as Hload.
  { unfold LoadOrGenerateKeypair, bind, os_Stat, os_ReadFile, ask, log_Fatal.
    fold keyFile. rewrite Hfile, Hstat. simpl. by rewrite Hfile, Hread, Hdec. }
  eexists. split; [exact Hload|].
  split_and!; try done.
  - unfold main_startup, bind. by rewrite Hload.
  - unfold keygens. by rewrite omap_emit, app_nil_r.
  - unfold writes. by rewrite omap_emit, app_nil_r.
Qed.

(** ** Node creation and bootstrap *)

Lemma bind_done_inv {A B} (c : M A) (k : A → M B) w b w' :
  bind c k w = Done b w' → ∃ a w1, c w = Done a w1 ∧ k a w1 = Done b w'.
Proof. unfold bind. destruct (c w) as [a w1| |]; [eauto|done..]. Qed.

(** Parsing only logs. *)
Lemma parse_bootstrap_spec bootstrapList w :
  ∃ lines, parse_bootstrap bootstrapList w
           = Done (parsed bootstrapList)
               (mkWorld (files w) (clock_reads w) (trace w ++ (EvLog <$> lines))).
Proof.
  revert w. induction bootstrapList as [|addr rest IH]; intros w; simpl.
  - exists []. destruct w. simpl. by rewrite app_nil_r.
  - unfold parsed. simpl. fold (parsed rest).
    destruct (AddrInfoFromString E addr) as [info|e]; unfold bind; simpl.
    + destruct (IH w) as [lines ->]. by exists lines.
    + destruct (IH (emit (EvLog ("Invalid bootstrap addr: " +:+ addr
                                 +:+ " (" +:+ e +:+ ")")) w)) as [lines ->].
      eexists (_ :: lines). simpl. by rewrite <- app_assoc.
Qed.

(** Dialling: one [Connect] per entry, in order, and nothing else but log
    lines, whatever each dial returns. *)
Lemma connect_bootstrap_spec peerAddrs w :
  ∃ evs, connect_bootstrap peerAddrs w
         = Done tt (mkWorld (files w) (clock_reads w) (trace w ++ evs))
       ∧ omap connect_of evs = peerAddrs
       ∧ omap keygen_of evs = []
       ∧ omap write_of evs = [].
Proof.
  revert w. induction peerAddrs as [|info rest IH]; intros w; simpl.
  - exists []. destruct w. simpl. by rewrite app_nil_r.
  - unfold bind, host_Connect, log_Printf, tell.
    destruct (Connect E w info) as [e|]; simpl.
    + destruct (IH (emit (EvLog ("Failed to connect to " +:+ ID info +:+ ": " +:+ e))
                      (emit (EvConnect info) w))) as (evs & -> & Hc & Hk & Hw).
      exists (EvConnect info
              :: EvLog ("Failed to connect to " +:+ ID info +:+ ": " +:+ e) :: evs).
      simpl. rewrite <- !app_assoc.
      split_and!; [done | by rewrite <- Hc | by rewrite <- Hk | by rewrite <- Hw].
    + destruct (IH (emit (EvLog ("Connected to bootstrap peer: " +:+ ID info))
                      (emit (EvConnect info) w))) as (evs & -> & Hc & Hk & Hw).
      exists (EvConnect info
              :: EvLog ("Connected to bootstrap peer: " +:+ ID info) :: evs).
      simpl. rewrite <- !app_assoc.
      split_and!; [done | by rewrite <- Hc | by rewrite <- Hk | by rewrite <- Hw].
Qed.

Lemma omap_log {A} (f : event → option A) lines :
  (∀ line, f (EvLog line) = None) → omap f (EvLog <$> lines) = [].
Proof. intros Hf. induction lines; simpl; [done|]. by rewrite Hf. Qed.

(** The bootstrap block of [CreateLibp2pNode] as a whole. *)
Lemma bootstrap_spec bootstrapList w :
  ∃ evs,
    (if bool_decide (0 < length bootstrapList)%nat
     then bind (parse_bootstrap bootstrapList) connect_bootstrap
     else ret tt) w
    = Done tt (mkWorld (files w) (clock_reads w) (trace w ++ evs))
    ∧ omap connect_of evs = parsed bootstrapList
    ∧ omap keygen_of evs = []
    ∧ omap write_of evs = [].
Proof.
  case_bool_decide as Hlen.
  - unfold bind. destruct (parse_bootstrap_spec bootstrapList w) as [lines ->].
    destruct (connect_bootstrap_spec (parsed bootstrapList)
                (mkWorld (files w) (clock_reads w) (trace w ++ (EvLog <$> lines))))
      as (evs & -> & Hc & Hk & Hw).
    exists ((EvLog <$> lines) ++ evs). simpl.
    rewrite <- app_assoc, !omap_app, Hc, Hk, Hw, !omap_log by done.
    done.
  - destruct bootstrapList; [|simpl in Hlen; lia].
    exists []. destruct w. simpl. by rewrite app_nil_r.
Qed.

(** What a completed [CreateLibp2pNode] did: it drew one fresh key pair,
    made the host run under it, and dialled the parsed bootstrap peers. *)
Lemma CreateLibp2pNode_done port bootstrapList w host ps w' :
  CreateLibp2pNode port bootstrapList w = Done (host, ps) w' →
  ∃ priv pub,
    GenerateKeyPair E w = Ok (priv, pub)
    ∧ host_identity host = priv
    ∧ ps_host ps = host
    ∧ keygens w' = keygens w ++ [(priv, pub)]
    ∧ connects w' = connects w ++ parsed bootstrapList
    ∧ files w' = files w.
Proof.
  unfold CreateLibp2pNode, bind, crypto_GenerateKeyPair, new_host,
    new_gossipsub, log_Printf, log_Fatal, tell, ret.
  destruct (GenerateKeyPair E w) as [[priv pub]|e]; [|done].
  destruct (libp2p_New E _ _ _) as [id|e]; [|done]. simpl.
  destruct (NewGossipSub E _ _) as [e|]; [done|]. simpl.
  match goal with
  | |- context [ (if bool_decide _ then _ else _) ?w0 ] =>
      destruct (bootstrap_spec bootstrapList w0) as (evs & Hrun & Hc & Hk & Hw)
  end.
  unfold bind, ret in Hrun. rewrite Hrun.
  intros [= <- <- <-]. exists priv, pub. split_and!; try done.
  - unfold keygens. simpl. rewrite !omap_app, Hk. simpl.
    by rewrite !app_nil_r.
  - unfold connects. simpl. rewrite !omap_app, Hc. simpl.
    by rewrite !app_nil_r.
Qed.

(** When key generation, host creation and gossip start succeed,
    [CreateLibp2pNode] completes for every bootstrap list. *)
Lemma CreateLibp2pNode_completes port bootstrapList w :
  (∀ w0, ∃ k, GenerateKeyPair E w0 = Ok k) →
  (∀ w0 listen priv, ∃ id, libp2p_New E w0 listen priv = Ok id) →
  (∀ w0 host, NewGossipSub E w0 host = None) →
  ∃ host ps w', CreateLibp2pNode port bootstrapList w = Done (host, ps) w'.
Proof.
  intros Hgen Hnew Hgs.
  unfold CreateLibp2pNode, bind, crypto_GenerateKeyPair, new_host,
    new_gossipsub, log_Printf, log_Fatal, tell, ret.
  destruct (Hgen w) as [[priv pub] ->].
  match goal with
  | |- context [ libp2p_New E ?w0 ?l ?p ] => destruct (Hnew w0 l p) as [id ->]
  end. simpl. rewrite Hgs. simpl.
  match goal with
  | |- context [ (if bool_decide _ then _ else _) ?w0 ] =>
      destruct (bootstrap_spec bootstrapList w0) as (evs & Hrun & _)
  end.
  unfold bind, ret in Hrun. rewrite Hrun. eauto.
Qed.

(** C8. Whatever the bootstrap list holds and whatever each dial returns,
    node creation returns a host and a pubsub service once the host itself
    could be made; the dials attempted are exactly the addresses that
    parse, one attempt each, in the configured order, so a malformed
    address or a refused dial costs only its own entry.  With the topic
    joined and subscribed, [InitNode] then completes with an active
    subscription. *)
Theorem bootstrap_tolerance (s : Libp2pNodeService) (w : world) :
  (∀ w0, ∃ k, GenerateKeyPair E w0 = Ok k) →
  (∀ w0 listen priv, ∃ id, libp2p_New E w0 listen priv = Ok id) →
  (∀ w0 host, NewGossipSub E w0 host = None) →
  (∀ w0 name, Join E w0 name = None) →
  (∀ w0 name, Subscribe E w0 name = None) →
  (∀ port bootstrapList w0,
     ∃ host ps w1,
       CreateLibp2pNode port bootstrapList w0 = Done (host, ps) w1
       ∧ connects w1 = connects w0 ++ parsed bootstrapList)
  ∧ (∃ s' w', InitNode s w = Done s' w'
       ∧ is_Some (node s')
       ∧ topic s' = Some (mkTopic "sight-message")
       ∧ subscribed s' = Some (mkSubscription "sight-message")
       ∧ connects w' = connects w ++ parsed (bootstrap s)).
Proof.
  intros Hgen Hnew Hgs Hjoin Hsub. split.
  - intros port bootstrapList w0.
    destruct (CreateLibp2pNode_completes port bootstrapList w0 Hgen Hnew Hgs)
      as (host & ps & w1 & Hrun).
    exists host, ps, w1. split; [done|].
    by apply CreateLibp2pNode_done in Hrun as (? & ? & ? & ? & ? & ? & ? & ?).
  - destruct (CreateLibp2pNode_completes (nodePort s) (bootstrap s) w Hgen Hnew Hgs)
      as (host & ps & w1 & Hrun).
    pose proof Hrun as Hdone.
    apply CreateLibp2pNode_done in Hdone as (? & ? & _ & _ & _ & _ & Hconn & _).
    unfold InitNode, bind, ps_Join, topic_Subscribe, ret.
    rewrite Hrun. simpl. rewrite Hjoin. simpl. rewrite Hsub.
    eexists _, _. split; [reflexivity|]. simpl.
    split_and!; try done.
    unfold connects in *. by rewrite !omap_emit, Hconn, !app_nil_r.
Qed.

(** ** Keypair and identity of a running node *)

(** [InitNode] fills in host, topic and subscription and leaves the rest of
    the service alone. *)
Lemma InitNode_done s w s' w' :
  InitNode s w = Done s' w' →
  did s' = did s ∧ keypair s' = keypair s ∧ isGateway s' = isGateway s
  ∧ tunnelAPI s' = tunnelAPI s
  ∧ ∃ host ps w1,
      CreateLibp2pNode (nodePort s) (bootstrap s) w = Done (host, ps) w1
      ∧ node s' = Some host
      ∧ keygens w' = keygens w1.
Proof.
  unfold InitNode. intros H.
  apply bind_done_inv in H as ([host ps] & w1 & Hnode & H).
  apply bind_done_inv in H as (joined & w2 & Hjoin & H).
  destruct joined as [tp|e]; [|done].
  apply bind_done_inv in H as (sub & w3 & Hsub & H).
  destruct sub as [sb|e]; [|done].
  injection H as <- <-. simpl. split_and!; try done.
  exists host, ps, w1. split_and!; try done.
  unfold ps_Join in Hjoin. unfold topic_Subscribe in Hsub.
  destruct (Join E w1 _); [done|]. injection Hjoin as <- <-.
  simpl in Hsub. destruct (Subscribe E _ _); [done|]. injection Hsub as _ <-.
  unfold keygens. by rewrite !omap_emit, !app_nil_r.
Qed.

(** C9, as the code has it.  A started node holds one [Keypair], the one
    the keypair store returned, and one identity, which is [derive] of that
    keypair's public key and the gateway flag; [InitNode], the only
    operation that updates the service, changes neither.  The overlay host
    does not run under that keypair: its identity key is a further key pair
    that [CreateLibp2pNode] draws from the generator after the keypair was
    loaded. *)
Theorem one_keypair_one_identity (w : world) (c : Libp2pNodeController)
    (w' : world) :
  main_startup w = Done c w' →
  ∃ kp w1 host priv pub,
    LoadOrGenerateKeypair w = Done kp w1
    ∧ keypair (service c) = kp
    ∧ did (service c) = derive (PublicKey kp) (isGateway (service c))
    ∧ (∀ s0 w0 s1 w2, InitNode s0 w0 = Done s1 w2 →
         did s1 = did s0 ∧ keypair s1 = keypair s0 ∧ isGateway s1 = isGateway s0)
    ∧ node (service c) = Some host
    ∧ host_identity host = priv
    ∧ GenerateKeyPair E w1 = Ok (priv, pub)
    ∧ keygens w' = keygens w1 ++ [(priv, pub)].
Proof.
  unfold main_startup. intros H.
  apply bind_done_inv in H as (kp & w1 & Hload & H).
  apply bind_done_inv in H as (s' & w2 & Hinit & H).
  injection H as <- <-.
  apply InitNode_done in Hinit
    as (Hdid & Hkp & Hgw & _ & host & ps & w3 & Hnode & Hhost & Hkeys).
  apply CreateLibp2pNode_done in Hnode
    as (priv & pub & Hgen & Hid & _ & Hgens & _).
  exists kp, w1, host, priv, pub. simpl. split_and!; try done.
  - rewrite Hdid, Hgw. simpl. by destruct (bool_decide _).
  - intros s0 w0 s1 w4 Hrun. apply InitNode_done in Hrun. tauto.
  - by rewrite Hkeys.
Qed.

(** * Further properties of the code *)

(** ** The identity text determines the key *)

Lemma b58_index_digit d : 0 ≤ d < 58 → b58_index (base58.digit d) = d.
Proof.
  intros Hd.
  assert (forallb (λ d, b58_index (base58.digit d) =? d) (seqZ 0 58) = true)
    as Hall by (vm_compute; reflexivity).
  rewrite forallb_forall in Hall. apply Z.eqb_eq, Hall.
  apply list_elem_of_In, elem_of_seqZ. lia.
Qed.

Lemma b58_value_acc s acc :
  b58_value acc s = acc * 58 ^ Z.of_nat (String.length s) + b58_value 0 s.
Proof.
  revert acc. induction s as [|c s IH]; intros acc.
  - simpl. lia.
  - cbn [b58_value String.length]. rewrite (IH (acc * 58 + _)), (IH (0 * 58 + _)).
    rewrite Nat2Z.inj_succ, Z.pow_succ_r by lia. lia.
Qed.

Lemma b58_value_digits fuel n acc :
  0 ≤ n < 58 ^ Z.of_nat fuel →
  b58_value 0 (base58.digits fuel n acc)
  = n * 58 ^ Z.of_nat (String.length acc) + b58_value 0 acc.
Proof.
  revert n acc. induction fuel as [|fuel IH]; intros n acc Hn.
  - simpl in *. assert (n = 0) as -> by lia. lia.
  - cbn [base58.digits]. destruct (Z.eqb_spec n 0) as [->|Hnz]; [lia|].
    rewrite Nat2Z.inj_succ, Z.pow_succ_r in Hn by lia.
    rewrite IH by (split; [apply Z.div_pos; lia | apply Z.div_lt_upper_bound; lia]).
    cbn [String.length]. rewrite (b58_value_acc acc), Nat2Z.inj_succ, Z.pow_succ_r by lia.
    cbn [b58_value]. rewrite b58_value_acc.
    rewrite b58_index_digit by (apply Z.mod_pos_bound; lia).
    pose proof (Z.div_mod n 58 ltac:(lia)). lia.
Qed.

Lemma byte_val_range b : 0 ≤ byte_val b < 256.
Proof.
  unfold byte_val. pose proof (Byte.to_N_bounded b). lia.
Qed.

Lemma byte_val_inj b1 b2 : byte_val b1 = byte_val b2 → b1 = b2.
Proof.
  unfold byte_val. intros H. apply Z2N.inj_iff in H; [|lia..].
  rewrite !N2Z.id in H.
  pose proof (Byte.of_to_N b1) as H1. rewrite H, Byte.of_to_N in H1.
  by injection H1.
Qed.

Lemma big_endian_split acc bin :
  base58.big_endian acc bin
  = acc * 256 ^ Z.of_nat (length bin) + base58.big_endian 0 bin
  ∧ 0 ≤ base58.big_endian 0 bin < 256 ^ Z.of_nat (length bin).
Proof.
  revert acc. induction bin as [|b bin IH]; intros acc.
  - simpl. lia.
  - cbn [base58.big_endian length].
    destruct (IH (acc * 256 + byte_val b)) as [-> _].
    destruct (IH (0 * 256 + byte_val b)) as [-> Hr].
    rewrite Nat2Z.inj_succ, Z.pow_succ_r by lia.
    pose proof (byte_val_range b).
    assert (0 < 256 ^ Z.of_nat (length bin)) by (apply Z.pow_pos_nonneg; lia).
    split; nia.
Qed.

Lemma big_endian_inj acc1 acc2 bin1 bin2 :
  length bin1 = length bin2 →
  base58.big_endian acc1 bin1 = base58.big_endian acc2 bin2 →
  acc1 = acc2 ∧ bin1 = bin2.
Proof.
  revert acc1 acc2 bin2.
  induction bin1 as [|b1 bin1 IH]; intros acc1 acc2 [|b2 bin2] Hlen H;
    simpl in *; try done.
  apply IH in H as [Hacc ->]; [|lia].
  pose proof (byte_val_range b1). pose proof (byte_val_range b2).
  assert (byte_val b1 = byte_val b2) as Hb by lia.
  apply byte_val_inj in Hb as ->. split; [lia|done].
Qed.

Lemma tagged_key_value pk :
  b58_value 0 (base58.Encode (xed :: x01 :: pk))
  = 60673 * 256 ^ Z.of_nat (length pk) + base58.big_endian 0 pk
  ∧ 0 ≤ base58.big_endian 0 pk < 256 ^ Z.of_nat (length pk).
Proof.
  destruct (big_endian_split 60673 pk) as [Hsplit Hr]. split; [|done].
  unfold base58.Encode.
  change (base58.zcount (xed :: x01 :: pk)) with 0%nat.
  change (base58.big_endian 0 (xed :: x01 :: pk)) with (base58.big_endian 60673 pk).
  cbn [base58.ones]. change (String.app "" ?s) with s.
  rewrite b58_value_digits; [simpl; lia|].
  rewrite Hsplit.
  assert (0 < 256 ^ Z.of_nat (length pk)) by (apply Z.pow_pos_nonneg; lia).
  split; [nia|].
  replace (Z.of_nat (2 * length (xed :: x01 :: pk)))
    with (2 * (Z.of_nat (length pk) + 2)) by (cbn [length]; lia).
  rewrite Z.pow_mul_r by lia. change (58 ^ 2) with 3364.
  rewrite Z.pow_add_r by lia.
  assert (256 ^ Z.of_nat (length pk) ≤ 3364 ^ Z.of_nat (length pk))
    by (apply Z.pow_le_mono_l; lia).
  nia.
Qed.

(** The text after the namespace prefix is the base58 form of a number
    from which the tagged key can be read back, whatever its length. *)
Lemma ToSightDID_inj pk1 pk2 : ToSightDID pk1 = ToSightDID pk2 → pk1 = pk2.
Proof.
  intros Heq.
  unfold ToSightDID in Heq. apply (inj (String.app _)) in Heq.
  apply (f_equal (b58_value 0)) in Heq.
  change ([xed; x01] ++ pk1) with (xed :: x01 :: pk1) in Heq.
  change ([xed; x01] ++ pk2) with (xed :: x01 :: pk2) in Heq.
  destruct (tagged_key_value pk1) as [H1 R1].
  destruct (tagged_key_value pk2) as [H2 R2].
  rewrite H1, H2 in Heq.
  assert (length pk1 = length pk2) as Hlen.
  { destruct (Nat.lt_trichotomy (length pk1) (length pk2)) as [Hlt|[?|Hlt]];
      [|done|]; exfalso.
    - replace (Z.of_nat (length pk2))
        with (Z.of_nat (length pk1) + Z.of_nat (length pk2 - length pk1)) in * by lia.
      rewrite Z.pow_add_r in * by lia.
      assert (0 < 256 ^ Z.of_nat (length pk1)) by (apply Z.pow_pos_nonneg; lia).
      assert (256 ^ 1 ≤ 256 ^ Z.of_nat (length pk2 - length pk1))
        by (apply Z.pow_le_mono_r; lia).
      nia.
    - replace (Z.of_nat (length pk1))
        with (Z.of_nat (length pk2) + Z.of_nat (length pk1 - length pk2)) in * by lia.
      rewrite Z.pow_add_r in * by lia.
      assert (0 < 256 ^ Z.of_nat (length pk2)) by (apply Z.pow_pos_nonneg; lia).
      assert (256 ^ 1 ≤ 256 ^ Z.of_nat (length pk1 - length pk2))
        by (apply Z.pow_le_mono_r; lia).
      nia. }
  rewrite Hlen in Heq.
  assert (base58.big_endian 0 pk1 = base58.big_endian 0 pk2) as Hbe by lia.
  by apply big_endian_inj in Hbe as [_ ?].
Qed.

(** X1. Two different public keys never get the same hoster identity. *)
Theorem distinct_keys_distinct_identities (pk1 pk2 : bytes) :
  pk1 ≠ pk2 → ToSightDID pk1 ≠ ToSightDID pk2.
Proof. intros Hne Heq. by apply Hne, ToSightDID_inj. Qed.

(** X2. Two services have the same identity only if both are gateways
    or neither is and their public keys are equal; a hoster identity is
    never the gateway literal. *)
Theorem identity_collision (kp1 kp2 : Keypair) (port1 port2 : Z)
    (api1 api2 : string) (gw1 gw2 : bool) (peers1 peers2 : list string) :
  did (NewLibp2pNodeService kp1 port1 api1 gw1 peers1)
  = did (NewLibp2pNodeService kp2 port2 api2 gw2 peers2) →
  gw1 = gw2 ∧ (gw1 = false → PublicKey kp1 = PublicKey kp2).
Proof.
  destruct gw1, gw2; simpl; intros H.
  - done.
  - unfold ToSightDID in H. discriminate.
  - unfold ToSightDID in H. discriminate.
  - split; [done|]. intros _. by apply ToSightDID_inj.
Qed.

(** ** The keypair store, every path *)

Ltac run_load :=
  unfold LoadOrGenerateKeypair, bind, os_Stat, os_ReadFile, os_WriteFile,
    os_MkdirAll, crypto_GenerateKeyPair, time_Now, ask, log_Printf, log_Fatal,
    tell, ret;
  fold keyFile.

(** The generation branch, run to its end. *)
Lemma generate_run w priv pub data :
  os_Stat keyFile w ≠ Done None w →
  GenerateKeyPair E w = Ok (priv, pub) →
  json_Marshal_Keypair E (generated_keypair w priv pub) = Ok data →
  (∀ w0, write_error E w0 keyFile = None) →
  LoadOrGenerateKeypair w
  = Done (generated_keypair w priv pub)
      (mkWorld (<[keyFile := data]> (files w)) (S (S (clock_reads w)))
         (trace w ++ [EvKeyGen priv pub; EvMkdirAll getDataDir;
                      EvWriteFile keyFile data;
                      EvLog ("[KeyPair] Generated new and saved to " +:+ keyFile)])).
Proof.
  intros Hstat Hgen Henc Hwrite. revert Hstat. run_load.
  destruct (files w !! keyFile) as [old|] eqn:Hfile.
  - destruct (stat_error E w keyFile) as [e|]; [intros _|done].
    rewrite Hgen. simpl. unfold generated_keypair in Henc. rewrite Henc. simpl.
    rewrite Hwrite. simpl. unfold emit. simpl. by rewrite <- !app_assoc.
  - intros _. rewrite Hgen. simpl. unfold generated_keypair in Henc.
    rewrite Henc. simpl. rewrite Hwrite. simpl. unfold emit. simpl.
    by rewrite <- !app_assoc.
Qed.

(** The load branch, run to its end. *)
Lemma load_run w data kp rewritten :
  files w !! keyFile = Some data →
  stat_error E w keyFile = None →
  read_error E w keyFile = None →
  json_Unmarshal_Keypair E data = Ok kp →
  json_Marshal_Keypair E
    (with_LastUsed kp (RFC3339 E (clock E (clock_reads w)))) = Ok rewritten →
  (∀ w0, write_error E w0 keyFile = None) →
  LoadOrGenerateKeypair w
  = Done (with_LastUsed kp (RFC3339 E (clock E (clock_reads w))))
      (mkWorld (<[keyFile := rewritten]> (files w)) (S (clock_reads w))
         (trace w ++ [EvWriteFile keyFile rewritten;
                      EvLog ("[KeyPair] Loaded from " +:+ keyFile)])).
Proof.
  intros Hfile Hstat Hread Hdec Henc Hwrite. run_load.
  rewrite Hfile, Hstat. simpl. rewrite Hfile, Hread, Hdec. simpl.
  rewrite Henc. simpl. rewrite Hwrite. simpl. unfold emit. simpl.
  by rewrite <- !app_assoc.
Qed.

(** X3. Whenever [LoadOrGenerateKeypair] returns a keypair, the keypair
    file holds the encoding of exactly that keypair, and no other file was
    touched. *)
Theorem returned_keypair_is_on_disk (w : world) (kp : Keypair) (w' : world) :
  LoadOrGenerateKeypair w = Done kp w' →
  ∃ data, json_Marshal_Keypair E kp = Ok data
          ∧ files w' !! keyFile = Some data
          ∧ ∀ path, path ≠ keyFile → files w' !! path = files w !! path.
Proof.
  run_load. intros H.
  repeat (case_match; simplify_eq/=);
    eexists; (split; [eassumption|]);
    (split; [apply lookup_insert_eq | intros; by apply lookup_insert_ne]).
Qed.

(** X4. A load that ends in [log.Fatal] has touched no file but the
    keypair file, and that one only if the failing step was the write
    itself: [os.WriteFile] truncates before it writes, so a write that
    fails after the open leaves the keypair file holding a prefix,
    possibly empty, of the encoding that was being written.  In every
    other fatal case the files are as they were. *)
Theorem fatal_load_touches_only_keypair_file (w w' : world) :
  LoadOrGenerateKeypair w = Fatal w' →
  (∀ path, path ≠ keyFile → files w' !! path = files w !! path)
  ∧ writes w' = writes w
  ∧ (files w' = files w
     ∨ ∃ kp data w0 e written,
         json_Marshal_Keypair E kp = Ok data
         ∧ write_error E w0 keyFile = Some (WriteFailed e written)
         ∧ files w' = <[keyFile := take written data]> (files w)).
Proof.
  run_load. intros H. unfold writes.
  repeat (case_match; simplify_eq/=);
    (split; [intros; by rewrite ?lookup_insert_ne|]);
    (split; [by rewrite ?omap_app, ?app_nil_r|]);
    first [ by left | right; by eexists _, _, _, _, _ ].
Qed.

(** X5. A first start and the start after it.  With no keypair file, the
    first start generates one key pair and stores it with two successive
    clock readings as [createdAt] and [lastUsed]; the next start reads
    that file back, returns the same seed, public key and [createdAt],
    generates nothing, and leaves the file holding the refreshed keypair. *)
Theorem restart_keeps_keypair (w : world) (priv pub data1 data2 : bytes) :
  let kp1 := generated_keypair w priv pub in
  let kp2 := with_LastUsed kp1 (RFC3339 E (clock E (S (S (clock_reads w))))) in
  files w !! keyFile = None →
  GenerateKeyPair E w = Ok (priv, pub) →
  json_Marshal_Keypair E kp1 = Ok data1 →
  json_Unmarshal_Keypair E data1 = Ok kp1 →
  json_Marshal_Keypair E kp2 = Ok data2 →
  (∀ w0, stat_error E w0 keyFile = None) →
  (∀ w0, read_error E w0 keyFile = None) →
  (∀ w0, write_error E w0 keyFile = None) →
  ∃ w1 w2,
    LoadOrGenerateKeypair w = Done kp1 w1
    ∧ LoadOrGenerateKeypair w1 = Done kp2 w2
    ∧ Seed kp2 = priv ∧ PublicKey kp2 = pub
    ∧ CreatedAt kp2 = CreatedAt kp1
    ∧ ToSightDID (PublicKey kp2) = ToSightDID (PublicKey kp1)
    ∧ keygens w1 = keygens w ++ [(priv, pub)]
    ∧ keygens w2 = keygens w1
    ∧ files w2 !! keyFile = Some data2
    ∧ LastUsed kp2 = RFC3339 E (clock E (S (S (clock_reads w)))).
Proof.
  intros kp1 kp2 Hfile Hgen Henc1 Hdec1 Henc2 Hstat Hread Hwrite.
  assert (os_Stat keyFile w ≠ Done None w) as Habsent.
  { unfold os_Stat, ask. by rewrite Hfile. }
  pose proof (generate_run w priv pub data1 Habsent Hgen Henc1 Hwrite) as Hrun1.
  match type of Hrun1 with _ = Done _ ?w0 => set (w1 := w0) in * end.
  pose proof (load_run w1 data1 kp1 data2 (lookup_insert_eq _ _ _)
                (Hstat _) (Hread _) Hdec1 Henc2 Hwrite) as Hrun2.
  eexists w1, _. split; [exact Hrun1|]. split; [exact Hrun2|].
  unfold keygens. simpl. rewrite !omap_app. simpl.
  split_and!; try done.
  - by rewrite app_nil_r.
  - apply lookup_insert_eq.
Qed.

(** X6. The existence test is [os.Stat] returning no error.  When the
    keypair file is there but [os.Stat] fails on it, the generation branch
    runs: a new key pair is generated and the file is overwritten with it,
    so the stored keypair is lost. *)
Theorem stat_failure_replaces_keypair (w : world) (old : bytes) (e : string)
    (priv pub data : bytes) :
  files w !! keyFile = Some old →
  stat_error E w keyFile = Some e →
  GenerateKeyPair E w = Ok (priv, pub) →
  json_Marshal_Keypair E (generated_keypair w priv pub) = Ok data →
  (∀ w0, write_error E w0 keyFile = None) →
  ∃ kp w', LoadOrGenerateKeypair w = Done kp w'
    ∧ Seed kp = priv ∧ PublicKey kp = pub
    ∧ files w' !! keyFile = Some data
    ∧ keygens w' = keygens w ++ [(priv, pub)]
    ∧ writes w' = writes w ++ [(keyFile, data)].
Proof.
  intros Hfile Hstat Hgen Henc Hwrite.
  eexists _, _. split.
  { apply (generate_run w priv pub data); try done.
    unfold os_Stat, ask. rewrite Hfile, Hstat. done. }
  unfold keygens, writes. simpl. rewrite !omap_app. simpl.
  split_and!; try done. apply lookup_insert_eq.
Qed.

(** ** Node creation, every path *)

Lemma parse_bootstrap_run bootstrapList w :
  parse_bootstrap bootstrapList w
  = Done (parsed bootstrapList)
      (mkWorld (files w) (clock_reads w)
         (trace w ++ (EvLog <$> invalid_lines bootstrapList))).
Proof.
  revert w. induction bootstrapList as [|addr rest IH]; intros w.
  - destruct w. simpl. unfold ret. simpl. by rewrite app_nil_r.
  - cbn [parse_bootstrap]. unfold parsed, invalid_lines. cbn [omap list_omap].
    fold (parsed rest). fold (invalid_lines rest).
    destruct (AddrInfoFromString E addr) as [info|e]; unfold bind.
    + by rewrite IH.
    + unfold log_Printf, tell. rewrite IH. simpl. by rewrite <- app_assoc.
Qed.

Lemma connect_bootstrap_run peerAddrs w :
  ∃ dialled,
    connect_bootstrap peerAddrs w
    = Done tt (mkWorld (files w) (clock_reads w)
                 (trace w ++ (dialled ≫= dial_events)))
    ∧ dialled.*1 = peerAddrs.
Proof.
  revert w. induction peerAddrs as [|info rest IH]; intros w; simpl.
  - exists []. destruct w. simpl. by rewrite app_nil_r.
  - unfold bind, host_Connect, log_Printf, tell.
    destruct (Connect E w info) as [e|]; simpl.
    + destruct (IH (emit (EvLog ("Failed to connect to " +:+ ID info +:+ ": " +:+ e))
                      (emit (EvConnect info) w))) as (dialled & -> & Hd).
      exists ((info, "Failed to connect to " +:+ ID info +:+ ": " +:+ e) :: dialled).
      split; [simpl; by rewrite <- !app_assoc | by rewrite fmap_cons, Hd].
    + destruct (IH (emit (EvLog ("Connected to bootstrap peer: " +:+ ID info))
                      (emit (EvConnect info) w))) as (dialled & -> & Hd).
      exists ((info, "Connected to bootstrap peer: " +:+ ID info) :: dialled).
      split; [simpl; by rewrite <- !app_assoc | by rewrite fmap_cons, Hd].
Qed.

Lemma bootstrap_run bootstrapList w :
  ∃ dialled,
    (if bool_decide (0 < length bootstrapList)%nat
     then bind (parse_bootstrap bootstrapList) connect_bootstrap
     else ret tt) w
    = Done tt (mkWorld (files w) (clock_reads w)
                 (trace w ++ (EvLog <$> invalid_lines bootstrapList)
                          ++ (dialled ≫= dial_events)))
    ∧ dialled.*1 = parsed bootstrapList.
Proof.
  case_bool_decide as Hlen.
  - unfold bind. rewrite parse_bootstrap_run.
    destruct (connect_bootstrap_run (parsed bootstrapList)
                (mkWorld (files w) (clock_reads w)
                   (trace w ++ (EvLog <$> invalid_lines bootstrapList))))
      as (dialled & -> & Hd).
    exists dialled. simpl. by rewrite <- app_assoc.
  - destruct bootstrapList; [|simpl in Hlen; lia].
    exists []. destruct w. simpl. unfold ret. by rewrite !app_nil_r.
Qed.

Lemma parsed_or_invalid bootstrapList :
  (length (parsed bootstrapList) + length (invalid_lines bootstrapList))%nat
  = length bootstrapList.
Proof.
  induction bootstrapList as [|addr rest IH]; [done|].
  unfold parsed, invalid_lines in *. cbn [omap list_omap].
  destruct (AddrInfoFromString E addr); simpl; lia.
Qed.

(** A completed [CreateLibp2pNode], event by event. *)
Lemma CreateLibp2pNode_run (port : Z) (bootstrapList : list string)
    (w : world) (host : Host) (ps : PubSub) (w' : world) :
  CreateLibp2pNode port bootstrapList w = Done (host, ps) w' →
  ∃ priv pub dialled,
    host_listen host = "/ip4/0.0.0.0/tcp/" +:+ pretty port
    ∧ trace w'
      = trace w
        ++ [EvKeyGen priv pub; EvHostNew (host_listen host) priv;
            EvLog ("Libp2p Host created with peer ID: " +:+ host_ID host);
            EvGossipSub (host_ID host)]
        ++ (EvLog <$> invalid_lines bootstrapList)
        ++ (dialled ≫= dial_events)
    ∧ dialled.*1 = parsed bootstrapList
    ∧ (length dialled + length (invalid_lines bootstrapList))%nat
      = length bootstrapList.
Proof.
  unfold CreateLibp2pNode, bind, crypto_GenerateKeyPair, new_host,
    new_gossipsub, log_Printf, log_Fatal, tell, ret.
  destruct (GenerateKeyPair E w) as [[priv pub]|e]; [|done].
  destruct (libp2p_New E _ _ _) as [id|e]; [|done]. simpl.
  destruct (NewGossipSub E _ _) as [e|]; [done|]. simpl.
  match goal with
  | |- context [ (if bool_decide _ then _ else _) ?w0 ] =>
      destruct (bootstrap_run bootstrapList w0) as (dialled & Hrun & Hd)
  end.
  unfold bind, ret in Hrun. rewrite Hrun.
  intros [= <- <- <-]. exists priv, pub, dialled. simpl.
  split_and!; try done.
  - by rewrite <- !app_assoc.
  - rewrite <- (length_fmap fst dialled), Hd. apply parsed_or_invalid.
Qed.

(** X7. No configured address is dropped silently, and parsing is over
    before the first dial.  A completed [CreateLibp2pNode] has listened on
    the given port on all interfaces, then logged one line for each
    address that does not parse, then dialled each address that parses,
    every dial followed by exactly one log line for its outcome; the two
    groups together are the whole list. *)
Theorem every_address_dialled_or_reported (port : Z) (bootstrapList : list string)
    (w : world) (host : Host) (ps : PubSub) (w' : world) :
  CreateLibp2pNode port bootstrapList w = Done (host, ps) w' →
  ∃ priv pub dialled,
    host_listen host = "/ip4/0.0.0.0/tcp/" +:+ pretty port
    ∧ trace w'
      = trace w
        ++ [EvKeyGen priv pub; EvHostNew (host_listen host) priv;
            EvLog ("Libp2p Host created with peer ID: " +:+ host_ID host);
            EvGossipSub (host_ID host)]
        ++ (EvLog <$> invalid_lines bootstrapList)
        ++ (dialled ≫= dial_events)
    ∧ dialled.*1 = parsed bootstrapList
    ∧ (length dialled + length (invalid_lines bootstrapList))%nat
      = length bootstrapList.
Proof. apply CreateLibp2pNode_run. Qed.

(** X8. A [CreateLibp2pNode] that ends in [log.Fatal] has dialled nobody
    and written no file: the fatal steps (key generation, host creation,
    gossip start) all come before the bootstrap block, and nothing in that
    block is fatal. *)
Theorem fatal_creation_dials_nobody (port : Z) (bootstrapList : list string)
    (w w' : world) :
  CreateLibp2pNode port bootstrapList w = Fatal w' →
  connects w' = connects w ∧ files w' = files w ∧ writes w' = writes w.
Proof.
  unfold CreateLibp2pNode, bind, crypto_GenerateKeyPair, new_host,
    new_gossipsub, log_Printf, log_Fatal, tell, ret, connects, writes.
  destruct (GenerateKeyPair E w) as [[priv pub]|e].
  - destruct (libp2p_New E _ _ _) as [id|e]; simpl.
    + destruct (NewGossipSub E _ _) as [e|]; simpl.
      * intros [= <-]. rewrite !omap_emit. simpl. by rewrite !app_nil_r.
      * match goal with
        | |- context [ (if bool_decide _ then _ else _) ?w0 ] =>
            destruct (bootstrap_run bootstrapList w0) as (dialled & Hrun & Hd)
        end.
        unfold bind, ret in Hrun. by rewrite Hrun.
    + intros [= <-]. rewrite !omap_emit. simpl. by rewrite !app_nil_r.
  - intros [= <-]. rewrite !omap_emit. simpl. by rewrite !app_nil_r.
Qed.

(** ** The service before and after [InitNode] *)

Lemma InitNode_fields s w s' w' :
  InitNode s w = Done s' w' →
  ∃ host ps w1,
    CreateLibp2pNode (nodePort s) (bootstrap s) w = Done (host, ps) w1
    ∧ s' = mkService (did s) (keypair s) (tunnelAPI s) (isGateway s)
             (Some host) (pubsub s) (Some (mkSubscription "sight-message"))
             (Some (mkTopic "sight-message")) (bootstrap s) (nodePort s)
    ∧ w' = emit (EvSubscribe "sight-message") (emit (EvJoin "sight-message") w1).
Proof.
  unfold InitNode. intros H.
  apply bind_done_inv in H as ([host ps] & w1 & Hnode & H).
  apply bind_done_inv in H as (joined & w2 & Hjoin & H).
  destruct joined as [tp|e]; [|done].
  apply bind_done_inv in H as (sub & w3 & Hsub & H).
  destruct sub as [sb|e]; [|done].
  unfold ps_Join in Hjoin. destruct (Join E w1 _); [done|].
  injection Hjoin as <- <-.
  unfold topic_Subscribe in Hsub. simpl in Hsub.
  destruct (Subscribe E _ _); [done|]. injection Hsub as <- <-.
  injection H as <- <-. by exists host, ps, w1.
Qed.

(** X9. After a completed [InitNode] nothing the service does hits a nil
    handle: publishing and the HTTP handler run to their end, the inbound
    loop reads its subscription, and [Stop] closes the very host that
    [CreateLibp2pNode] made.  The topic joined and subscribed is
    [sight-message].  The pubsub handle that [CreateLibp2pNode] returned
    is not kept: the [pubsub] field is what it was before. *)
Theorem initialised_service_runs (s : Libp2pNodeService) (w : world)
    (s' : Libp2pNodeService) (w' : world) :
  InitNode s w = Done s' w' →
  topic s' = Some (mkTopic "sight-message")
  ∧ subscribed s' = Some (mkSubscription "sight-message")
  ∧ pubsub s' = pubsub s
  ∧ (∀ msg w0, ∃ w1, HandleOutgoingMessage s' msg w0 = Done tt w1)
  ∧ (∀ r_Body w0, ∃ resp w1, SendHandler (mkController s') r_Body w0 = Done resp w1)
  ∧ (∀ stream w0 w1, handleIncomingMessages s' stream w0 ≠ NilDeref w1)
  ∧ (∃ host ps w1,
       CreateLibp2pNode (nodePort s) (bootstrap s) w = Done (host, ps) w1
       ∧ ∀ w0, ∃ w2, Stop s' w0 = Done tt w2
                     ∧ EvClose (host_ID host) ∈ trace w2).
Proof.
  intros H. apply InitNode_fields in H as (host & ps & w1 & Hnode & -> & ->).
  simpl. do 3 (split; [done|]).
  split.
  { intros msg w0.
    destruct (HandleOutgoingMessage_spec
                (mkService (did s) (keypair s) (tunnelAPI s) (isGateway s)
                   (Some host) (pubsub s) (Some (mkSubscription "sight-message"))
                   (Some (mkTopic "sight-message")) (bootstrap s) (nodePort s))
                (mkTopic "sight-message") msg w0 eq_refl) as (w2 & Hrun & _).
    eauto. }
  split.
  { intros r_Body w0. unfold SendHandler.
    destruct (json_Decode E r_Body) as [request|e]; [|by eexists _, _].
    unfold bind. simpl.
    match goal with
    | |- context [ HandleOutgoingMessage ?sv ?m w0 ] =>
        destruct (HandleOutgoingMessage_spec sv (mkTopic "sight-message") m w0 eq_refl)
          as (w2 & -> & _)
    end.
    by eexists _, _. }
  split.
  { intros stream w0 w2. revert w0.
    induction stream as [|[data|e] stream IH]; intros w0; simpl;
      first [done | apply IH]. }
  exists host, ps, w1. split; [done|]. intros w0. unfold Stop. simpl.
  destruct (Close E w0 host); eexists; (split; [reflexivity|]);
    rewrite !trace_emit; set_solver.
Qed.

(** X10. A service that has not been through [InitNode] cannot be used:
    publishing, [Stop] and the HTTP handler on a decodable body panic on
    the nil topic or host before anything is sent or answered, and the
    inbound loop panics on the nil subscription.  Only a body that does not
    decode is still answered, with 400. *)
Theorem uninitialised_service_crashes (kp : Keypair) (port : Z) (api : string)
    (gw : bool) (peers : list string) (msg : json.gomap)
    (stream : list delivery) (r_Body : bytes) (w : world) :
  let s := NewLibp2pNodeService kp port api gw peers in
  HandleOutgoingMessage s msg w = Panic w
  ∧ Stop s w = Panic w
  ∧ handleIncomingMessages s stream w = NilDeref w
  ∧ match json_Decode E r_Body with
    | Ok _ => SendHandler (mkController s) r_Body w = Panic w
    | Err _ => SendHandler (mkController s) r_Body w
               = Done (http_Error "Invalid JSON" 400) w
    end.
Proof.
  simpl. split_and!; try done.
  - by destruct stream.
  - unfold SendHandler. by destruct (json_Decode E r_Body).
Qed.

(** ** What the inbound loop and the handler leave alone *)

Lemma handle_message_frame s data w :
  ∃ evs, final (handle_message s data w)
         = mkWorld (files w) (clock_reads w) (trace w ++ evs)
       ∧ Forall log_or_post evs.
Proof.
  unfold handle_message.
  destruct (json_Unmarshal E data) as [envelope|e]; simpl.
  - destruct (json.eq_string _ _); simpl.
    + unfold bind, post, log_Printf, tell, ret, emit.
      destruct (http_Post E w _ _ _); simpl.
      * eexists [_; _]. split; [by rewrite <- app_assoc|].
        by repeat constructor.
      * eexists [_]. split; [done|]. by repeat constructor.
    + exists []. destruct w. simpl. by rewrite app_nil_r.
  - eexists [_]. split; [done|]. by repeat constructor.
Qed.

Lemma loop_frame s stream w :
  ∃ evs, world_of (handleIncomingMessages s stream w)
         = mkWorld (files w) (clock_reads w) (trace w ++ evs)
       ∧ Forall log_or_post evs.
Proof.
  revert w. induction stream as [|[data|e] stream IH]; intros w; simpl.
  - destruct (subscribed s); exists []; destruct w; simpl; by rewrite app_nil_r.
  - destruct (subscribed s).
    + destruct (handle_message_frame s data w) as (evs1 & -> & H1).
      destruct (IH (mkWorld (files w) (clock_reads w) (trace w ++ evs1)))
        as (evs2 & -> & H2).
      exists (evs1 ++ evs2). simpl. rewrite <- app_assoc.
      split; [done|]. by apply Forall_app.
    + exists []. destruct w. simpl. by rewrite app_nil_r.
  - destruct (subscribed s).
    + eexists [_]. split; [done|]. by repeat constructor.
    + exists []. destruct w. simpl. by rewrite app_nil_r.
Qed.

Lemma omap_none_on {A} (f : event → option A) (P : event → Prop) evs :
  (∀ e, P e → f e = None) → Forall P evs → omap f evs = [].
Proof.
  intros Hf. induction 1 as [|e evs He _ IH]; [done|].
  simpl. by rewrite (Hf e He).
Qed.

(** X11. The inbound loop, on any stream and from any state, only logs
    and posts to the tunnel: it publishes nothing, dials nobody, generates
    no key, writes no file and reads no clock. *)
Theorem inbound_loop_effects (s : Libp2pNodeService) (stream : list delivery)
    (w : world) :
  let w' := world_of (handleIncomingMessages s stream w) in
  files w' = files w
  ∧ clock_reads w' = clock_reads w
  ∧ publishes w' = publishes w
  ∧ connects w' = connects w
  ∧ keygens w' = keygens w
  ∧ writes w' = writes w
  ∧ ∃ evs, trace w' = trace w ++ evs ∧ Forall log_or_post evs.
Proof.
  simpl. destruct (loop_frame s stream w) as (evs & -> & Hevs).
  unfold publishes, connects, keygens, writes. simpl. rewrite !omap_app.
  rewrite (omap_none_on publish_of log_or_post evs),
          (omap_none_on connect_of log_or_post evs),
          (omap_none_on keygen_of log_or_post evs),
          (omap_none_on write_of log_or_post evs);
    try done; try (by intros []).
  rewrite !app_nil_r. split_and!; try done. by exists evs.
Qed.

(** X12. Traffic for other nodes leaves no trace at all.  A run of
    messages that decode but carry a [to] other than this node's identity
    (another string, a value that is not a string, or no [to] at all)
    changes nothing: not even a log line is written. *)
Theorem foreign_traffic_leaves_no_trace (s : Libp2pNodeService)
    (sb : Subscription) (msgs : list bytes) (w : world) :
  subscribed s = Some sb →
  Forall (λ data, ∃ envelope,
            json_Unmarshal E data = Ok envelope
            ∧ json.index envelope "to" ≠ json.VStr (did s)) msgs →
  handleIncomingMessages s (Message <$> msgs) w = Waiting w.
Proof.
  intros Hsub Hall. rewrite (loop_waiting s sb) by done. f_equal.
  induction Hall as [|data msgs (envelope & Hdec & Hto) _ IH]; [done|].
  unfold run_messages in *. simpl. rewrite <- IH at 2. f_equal.
  unfold handle_message. rewrite Hdec.
  destruct (json.index envelope "to") as [| | |t| | |] eqn:Hidx; simpl; try done.
  case_bool_decide; [congruence|done].
Qed.

(** ** From one node's handler to another node's tunnel *)

(** What the handler publishes for a decoded request. *)
Lemma SendHandler_publishes c t r_Body request w :
  topic (service c) = Some t →
  json_Decode E r_Body = Ok request →
  ∃ resp w',
    SendHandler c r_Body w = Done resp w'
    ∧ status resp = 200
    ∧ publishes w'
      = publishes w
        ++ [(topic_name t,
             B (json.encode
                  (json.VMap {[ "to" := json.index request "to";
                                "payload" := json.iface request ]})))].
Proof.
  intros Ht Hdec. unfold SendHandler. rewrite Hdec. unfold bind.
  destruct (HandleOutgoingMessage_spec (service c) t
              (Some {[ "to" := json.index request "to";
                       "payload" := json.iface request ]}) w Ht)
    as (w1 & -> & Hpub & _).
  by eexists _, w1.
Qed.

(** X13. The relay end to end.  What one node's handler publishes for a
    request addressed to another node is, once that node's loop receives
    it and its decoder reads the envelope back, posted to that node's
    tunnel as the encoding of the whole original request, its [to]
    included; a node with another identity that receives the same bytes
    posts nothing. *)
Theorem relay_end_to_end (c : Libp2pNodeController) (t : Topic) (r_Body : bytes)
    (request : gmap string json.value) (recipient other : Libp2pNodeService)
    (w wr wo : world) :
  let envelope : gmap string json.value :=
    {[ "to" := json.VStr (did recipient); "payload" := json.VMap request ]} in
  topic (service c) = Some t →
  json_Decode E r_Body = Ok (Some request) →
  request !! "to" = Some (json.VStr (did recipient)) →
  json_Unmarshal E (B (json.encode (json.VMap envelope))) = Ok (Some envelope) →
  did other ≠ did recipient →
  ∃ data resp w',
    SendHandler c r_Body w = Done resp w'
    ∧ publishes w' = publishes w ++ [(topic_name t, data)]
    ∧ posts (final (handle_message recipient data wr))
      = posts wr ++ [(tunnelAPI recipient, "application/json",
                      B (json.encode (json.VMap request)))]
    ∧ handle_message other data wo = Done tt wo.
Proof.
  intros envelope Ht Hdec Hto Hinv Hother.
  destruct (SendHandler_publishes c t r_Body (Some request) w Ht Hdec)
    as (resp & w' & Hrun & _ & Hpub).
  unfold json.index in Hpub. rewrite Hto in Hpub.
  assert (envelope !! "to" = Some (json.VStr (did recipient))) as Hl1 by done.
  assert (envelope !! "payload" = Some (json.VMap request)) as Hl2 by done.
  exists (B (json.encode (json.VMap envelope))), resp, w'.
  split; [exact Hrun|]. split; [exact Hpub|]. split.
  - rewrite handle_message_posts.
    unfold addressed_to, tunnel_call, inner_payload, json.index.
    rewrite Hinv, Hl1, Hl2. cbn [default from_option id json.eq_string].
    by rewrite bool_decide_eq_true_2.
  - unfold handle_message, json.index. rewrite Hinv, Hl1.
    cbn [default from_option id json.eq_string].
    by rewrite bool_decide_eq_false_2.
Qed.

(** X14. The handler does not look at [to].  A request whose [to] is
    missing or is not a string is acknowledged with 200 and published like
    any other, but no node can ever forward it: whatever a node's identity
    is, its loop drops the published bytes without a tunnel call and
    without a log line. *)
Theorem request_without_recipient (c : Libp2pNodeController) (t : Topic)
    (r_Body : bytes) (request : json.gomap) (receiver : Libp2pNodeService)
    (w wn : world) :
  let envelope : gmap string json.value :=
    {[ "to" := json.index request "to"; "payload" := json.iface request ]} in
  topic (service c) = Some t →
  json_Decode E r_Body = Ok request →
  (∀ text, json.index request "to" ≠ json.VStr text) →
  json_Unmarshal E (B (json.encode (json.VMap envelope))) = Ok (Some envelope) →
  ∃ resp w',
    SendHandler c r_Body w = Done resp w'
    ∧ status resp = 200
    ∧ publishes w'
      = publishes w ++ [(topic_name t, B (json.encode (json.VMap envelope)))]
    ∧ handle_message receiver (B (json.encode (json.VMap envelope))) wn
      = Done tt wn.
Proof.
  intros envelope Ht Hdec Hto Hinv.
  destruct (SendHandler_publishes c t r_Body request w Ht Hdec)
    as (resp & w' & Hrun & Hst & Hpub).
  exists resp, w'. split_and!; try done.
  assert (envelope !! "to" = Some (json.index request "to")) as Hl1 by done.
  unfold handle_message. rewrite Hinv. unfold json.index at 1. rewrite Hl1.
  cbn [default from_option id].
  destruct (json.index request "to") as [| | |text| | |] eqn:Hidx; try done.
  by destruct (Hto text).
Qed.

Lemma HandleOutgoingMessage_frame s msg w :
  ∃ evs, final (HandleOutgoingMessage s msg w)
         = mkWorld (files w) (clock_reads w) (trace w ++ evs)
       ∧ Forall log_or_publish evs
       ∧ (length (omap publish_of evs) ≤ 1)%nat.
Proof.
  unfold HandleOutgoingMessage, json.Marshal.
  destruct (topic s) as [t|]; simpl.
  - unfold bind, topic_Publish, log_Printf, tell, ret, emit.
    destruct (Publish E w _ _); simpl.
    + eexists [_; _]. split; [by rewrite <- app_assoc|].
      split; [by repeat constructor|simpl; lia].
    + eexists [_]. split; [done|]. split; [by repeat constructor|simpl; lia].
  - exists []. destruct w. simpl. rewrite app_nil_r.
    split; [done|]. split; [constructor|simpl; lia].
Qed.

(** X15. The HTTP handler, on any body and any service, only publishes
    and logs: it makes no tunnel call, dials nobody, generates no key,
    writes no file, and publishes at most one message per request. *)
Theorem send_handler_effects (c : Libp2pNodeController) (r_Body : bytes)
    (w : world) :
  let w' := final (SendHandler c r_Body w) in
  files w' = files w
  ∧ posts w' = posts w
  ∧ connects w' = connects w
  ∧ keygens w' = keygens w
  ∧ writes w' = writes w
  ∧ (length (publishes w') ≤ length (publishes w) + 1)%nat.
Proof.
  simpl.
  assert (∃ evs, final (SendHandler c r_Body w)
                 = mkWorld (files w) (clock_reads w) (trace w ++ evs)
               ∧ Forall log_or_publish evs
               ∧ (length (omap publish_of evs) ≤ 1)%nat) as (evs & -> & Hevs & Hone).
  { unfold SendHandler. destruct (json_Decode E r_Body) as [request|e].
    - unfold bind.
      match goal with
      | |- context [ HandleOutgoingMessage ?sv ?m w ] =>
          destruct (HandleOutgoingMessage_frame sv m w) as (evs & Hf & H1 & H2);
          destruct (HandleOutgoingMessage sv m w); simpl in *; eauto
      end.
    - exists []. destruct w. simpl. rewrite app_nil_r.
      split; [done|]. split; [constructor|simpl; lia]. }
  unfold posts, publishes, connects, keygens, writes. simpl. rewrite !omap_app.
  rewrite (omap_none_on post_of log_or_publish evs),
          (omap_none_on connect_of log_or_publish evs),
          (omap_none_on keygen_of log_or_publish evs),
          (omap_none_on write_of log_or_publish evs);
    try done; try (by intros []).
  rewrite !app_nil_r, length_app. split_and!; try done. lia.
Qed.

(** ** Configuration read by [main] *)

Lemma strings_Split_nonempty s sep : strings_Split s sep ≠ [].
Proof.
  destruct s as [|c s]; [done|]. simpl.
  case_bool_decide; [done|]. by destruct (strings_Split s sep).
Qed.

Lemma strings_Split_concat s sep :
  String.concat (String sep EmptyString) (strings_Split s sep) = s.
Proof.
  induction s as [|c s IH]; [done|]. simpl.
  pose proof (strings_Split_nonempty s sep) as Hne.
  destruct (strings_Split s sep) as [|first others]; [done|].
  case_bool_decide as Hc.
  - subst c. rewrite <- IH. reflexivity.
  - rewrite <- IH. by destruct others.
Qed.

Lemma main_startup_inv w c w' :
  main_startup w = Done c w' →
  ∃ kp w0 host ps w1,
    LoadOrGenerateKeypair w = Done kp w0
    ∧ CreateLibp2pNode (getEnvInt "NODE_PORT" 15050)
        (strings_Split (Getenv E "BOOTSTRAP_ADDRS") ","%char) w0
      = Done (host, ps) w1
    ∧ service c
      = mkService
          (if bool_decide (Getenv E "IS_GATEWAY" = "1") then "gateway"
           else ToSightDID (PublicKey kp))
          kp ("http://localhost:" +:+ Getenv E "API_PORT" +:+ "/libp2p/message")
          (bool_decide (Getenv E "IS_GATEWAY" = "1"))
          (Some host) None (Some (mkSubscription "sight-message"))
          (Some (mkTopic "sight-message"))
          (strings_Split (Getenv E "BOOTSTRAP_ADDRS") ","%char)
          (getEnvInt "NODE_PORT" 15050)
    ∧ w' = emit (EvSubscribe "sight-message") (emit (EvJoin "sight-message") w1).
Proof.
  unfold main_startup. intros H.
  apply bind_done_inv in H as (kp & w0 & Hload & H).
  apply bind_done_inv in H as (s' & w2 & Hinit & H).
  injection H as <- <-.
  apply InitNode_fields in Hinit as (host & ps & w1 & Hnode & -> & ->).
  exists kp, w0, host, ps, w1. simpl in *. split_and!; try done.
  by destruct (bool_decide _).
Qed.

(** X16. What a started node took from its environment.  The node is a
    gateway exactly when [IS_GATEWAY] is the one-character text 1, and its
    identity is the gateway literal in that case only.  The tunnel URL is
    built from [API_PORT].  The overlay host listens on [NODE_PORT], with
    15050 taking its place when the variable is empty or is not a number;
    [LIBP2P_PORT] plays no part in it. *)
Theorem startup_configuration (w : world) (c : Libp2pNodeController)
    (w' : world) :
  main_startup w = Done c w' →
  (isGateway (service c) = true ↔ Getenv E "IS_GATEWAY" = "1")
  ∧ (did (service c) = "gateway" ↔ Getenv E "IS_GATEWAY" = "1")
  ∧ tunnelAPI (service c)
    = "http://localhost:" +:+ Getenv E "API_PORT" +:+ "/libp2p/message"
  ∧ (∃ host, node (service c) = Some host
             ∧ host_listen host
               = "/ip4/0.0.0.0/tcp/" +:+ pretty (nodePort (service c)))
  ∧ (Getenv E "NODE_PORT" = ""
     ∨ (∃ e, strconv_Atoi E (Getenv E "NODE_PORT") = Err e) →
     nodePort (service c) = 15050)
  ∧ (∀ port, Getenv E "NODE_PORT" ≠ "" →
       strconv_Atoi E (Getenv E "NODE_PORT") = Ok port →
       nodePort (service c) = port).
Proof.
  intros H.
  apply main_startup_inv in H as (kp & w0 & host & ps & w1 & _ & Hnode & -> & _).
  apply CreateLibp2pNode_run in Hnode as (priv & pub & dialled & Hlisten & _).
  simpl. split_and!.
  - by rewrite bool_decide_eq_true.
  - case_bool_decide; [done|]. unfold ToSightDID. split; [discriminate|done].
  - done.
  - by exists host.
  - unfold getEnvInt. intros [Hempty|[e He]].
    + by rewrite bool_decide_eq_true_2.
    + case_bool_decide; [done|]. by rewrite He.
  - intros port Hne Hport. unfold getEnvInt.
    rewrite bool_decide_eq_false_2 by done. by rewrite Hport.
Qed.

Lemma strings_Split_pieces s sep :
  Forall (λ piece, contains sep piece = false) (strings_Split s sep).
Proof.
  induction s as [|c s IH]; [by repeat constructor|]. simpl.
  pose proof (strings_Split_nonempty s sep) as Hne.
  destruct (strings_Split s sep) as [|first others]; [done|].
  inversion IH as [|? ? Hfirst Hothers]; subst.
  case_bool_decide as Hc.
  - by repeat constructor.
  - constructor; [|done]. simpl. by rewrite bool_decide_eq_false_2.
Qed.

(** X17. The bootstrap list of a started node is [BOOTSTRAP_ADDRS] cut at
    every comma and nothing else: no entry contains a comma, and joining
    the entries with commas gives the variable back, so blanks around an
    address stay part of it.  The list is never empty, so the bootstrap
    block of [CreateLibp2pNode] always runs.  Between the start of gossip
    and the join of the topic the node wrote one log line for each entry
    that does not parse, naming it, and then dialled each entry that
    parses once, each dial followed by one log line. *)
Theorem bootstrap_list_from_variable (w : world) (c : Libp2pNodeController)
    (w' : world) :
  main_startup w = Done c w' →
  bootstrap (service c) ≠ []
  ∧ String.concat "," (bootstrap (service c)) = Getenv E "BOOTSTRAP_ADDRS"
  ∧ Forall (λ addr, contains ","%char addr = false) (bootstrap (service c))
  ∧ (length (parsed (bootstrap (service c)))
     + length (invalid_lines (bootstrap (service c))))%nat
    = length (bootstrap (service c))
  ∧ connects w' = connects w ++ parsed (bootstrap (service c))
  ∧ ∃ kp w0 priv pub host dialled,
      LoadOrGenerateKeypair w = Done kp w0
      ∧ node (service c) = Some host
      ∧ trace w'
        = trace w0
          ++ [EvKeyGen priv pub; EvHostNew (host_listen host) priv;
              EvLog ("Libp2p Host created with peer ID: " +:+ host_ID host);
              EvGossipSub (host_ID host)]
          ++ (EvLog <$> invalid_lines (bootstrap (service c)))
          ++ (dialled ≫= dial_events)
          ++ [EvJoin "sight-message"; EvSubscribe "sight-message"]
      ∧ dialled.*1 = parsed (bootstrap (service c)).
Proof.
  intros H.
  apply main_startup_inv in H as (kp & w0 & host & ps & w1 & Hload & Hnode & -> & ->).
  pose proof Hnode as Hrun.
  apply CreateLibp2pNode_run in Hrun as (priv & pub & dialled & _ & Htrace & Hd & _).
  apply CreateLibp2pNode_done in Hnode as (_ & _ & _ & _ & _ & _ & Hconn & _).
  assert (connects w0 = connects w) as Hbefore.
  { revert Hload. clear. run_load. intros H. unfold connects.
    repeat (case_match; simplify_eq/=);
      by rewrite ?omap_app, ?app_nil_r. }
  simpl. split_and!.
  - apply strings_Split_nonempty.
  - apply strings_Split_concat.
  - apply strings_Split_pieces.
  - apply parsed_or_invalid.
  - unfold connects in *. by rewrite !omap_emit, Hconn, !app_nil_r, Hbefore.
  - exists kp, w0, priv, pub, host, dialled. split_and!; try done.
    rewrite Htrace. by rewrite <- !app_assoc.
Qed.

(** X18. With [BOOTSTRAP_ADDRS] unset the list is the single empty
    address.  The library refusing to parse the empty text, a started node
    has then dialled nobody and has logged that one invalid address. *)
Theorem unset_bootstrap_variable (w : world) (c : Libp2pNodeController)
    (w' : world) (e : string) :
  main_startup w = Done c w' →
  Getenv E "BOOTSTRAP_ADDRS" = "" →
  AddrInfoFromString E "" = Err e →
  bootstrap (service c) = [""]
  ∧ connects w' = connects w
  ∧ EvLog ("Invalid bootstrap addr: " +:+ "" +:+ " (" +:+ e +:+ ")") ∈ trace w'.
Proof.
  intros H Hvar Hparse.
  apply main_startup_inv in H as (kp & w0 & host & ps & w1 & Hload & Hnode & -> & ->).
  rewrite Hvar in *. simpl in Hnode. simpl.
  split; [done|].
  pose proof Hnode as Hrun.
  apply CreateLibp2pNode_done in Hnode as (priv & pub & _ & _ & _ & _ & Hconn & _).
  apply CreateLibp2pNode_run in Hrun as (priv' & pub' & dialled & _ & Htrace & _).
  unfold parsed in Hconn. simpl in Hconn. rewrite Hparse in Hconn.
  unfold invalid_lines in Htrace. simpl in Htrace. rewrite Hparse in Htrace.
  split.
  - unfold connects in *. rewrite !omap_emit, Hconn. simpl. rewrite !app_nil_r.
    revert Hload. clear. run_load. intros H.
    repeat (case_match; simplify_eq/=);
      by rewrite ?omap_app, ?app_nil_r.
  - simpl. rewrite Htrace. set_solver.
Qed.

(** ** The copies next to [main] *)

Lemma run_messages_main_posts s msgs w :
  posts (run_messages_main s msgs w)
  = posts w ++ (tunnel_call s <$> List.filter (addressed_to s) msgs).
Proof.
  revert w. induction msgs as [|data msgs IH]; intros w; simpl.
  - by rewrite app_nil_r.
  - unfold run_messages_main in *. simpl.
    rewrite IH, handle_message_main_posts, handle_message_posts.
    rewrite <- app_assoc. f_equal.
    by destruct (addressed_to s data).
Qed.

(** X19. The second copy of the inbound loop body, which drops the
    encoder's error and words its log lines differently, makes the same
    tunnel calls as the first on every run of messages, whatever the
    tunnel answers along the way. *)
Theorem main_copy_same_tunnel_calls (s : Libp2pNodeService) (msgs : list bytes)
    (w : world) :
  posts (run_messages_main s msgs w) = posts (run_messages s msgs w).
Proof. by rewrite run_messages_main_posts, run_messages_posts. Qed.

(** X20. The second copy of [HandleOutgoingMessage] publishes the same
    bytes on the same topic as the first and panics on a nil topic like
    the first; it differs in writing no log line when the publish fails. *)
Theorem main_copy_same_publishes (s : Libp2pNodeService) (msg : json.gomap)
    (w : world) :
  publishes (final (HandleOutgoingMessage_main s msg w))
  = publishes (final (HandleOutgoingMessage s msg w))
  ∧ (∀ w', HandleOutgoingMessage_main s msg w = Panic w'
           ↔ HandleOutgoingMessage s msg w = Panic w')
  ∧ match topic s with
    | Some t =>
        HandleOutgoingMessage_main s msg w
        = Done tt (emit (EvPublish (topic_name t)
                           (B (json.encode (json.iface msg)))) w)
    | None => True
    end.
Proof.
  split; [apply HandleOutgoingMessage_main_publishes|].
  unfold HandleOutgoingMessage_main, HandleOutgoingMessage, json.Marshal.
  destruct (topic s) as [t|]; [|done].
  unfold bind, topic_Publish, log_Printf, tell, ret.
  split; [|done]. intros w'.
  by destruct (Publish E w _ _).
Qed.

End Program.

(** * The theorems at work on the reference environment *)

Import reference.

Lemma inbound_filtering_witness :
  subscribed gateway = Some (mkSubscription "sight-message")
  ∧ posts (world_of (handleIncomingMessages online gateway (Message <$> inbox) fresh))
    = [ (tunnel, "application/json", B (json.encode order));
        (tunnel, "application/json", B "null") ].
Proof.
  split; [reflexivity|].
  pose proof (inbound_filtering online gateway _ inbox fresh eq_refl) as H.
  cbv zeta in H. destruct H as [H _]. rewrite H. vm_compute. reflexivity.
Defined.

Lemma inbound_loop_exit_witness :
  subscribed gateway = Some (mkSubscription "sight-message")
  ∧ handleIncomingMessages online gateway
      ((Message <$> inbox) ++ Failure "context canceled" :: [Message for_gateway])
      fresh
    = Returned [Message for_gateway]
        (emit (EvLog "PubSub error: context canceled")
           (run_messages online gateway inbox fresh)).
Proof.
  split; [reflexivity|].
  destruct (inbound_loop_exit online gateway _ inbox fresh eq_refl)
    as (_ & _ & _ & H & _).
  apply H.
Defined.

Lemma missing_payload_posts_null_witness :
  json_Unmarshal online bare = Ok (Some {[ "to" := json.VStr "gateway" ]})
  ∧ ∃ w', handle_message online gateway bare fresh = Done tt w'
          ∧ posts w' = posts fresh ++ [(tunnel, "application/json", B "null")].
Proof.
  split; [vm_compute; reflexivity|].
  apply (missing_payload_posts_null online gateway bare
           {[ "to" := json.VStr "gateway" ]} fresh);
    vm_compute; reflexivity.
Defined.

Lemma outbound_envelope_witness :
  topic gateway = Some (mkTopic "sight-message")
  ∧ json_Decode online (B (json.encode (json.VMap request))) = Ok (Some request)
  ∧ publishes (final (SendHandler online (mkController gateway)
                        (B (json.encode (json.VMap request))) fresh))
    = [ ("sight-message",
         B (json.encode
              (json.VMap {[ "to" := json.VStr "did:sight:hoster:abc";
                            "payload" := json.VMap request ]}))) ].
Proof.
  split; [reflexivity|]. split; [vm_compute; reflexivity|].
  destruct (outbound_envelope online (mkController gateway) _
              (B (json.encode (json.VMap request))) (Some request) fresh eq_refl)
    as (envelope & resp & w' & Hrun & Hpub & _ & _ & _ & _ & Hshape);
    [vm_compute; reflexivity|].
  rewrite Hrun. simpl. rewrite Hpub, (Hshape eq_refl). reflexivity.
Defined.

(** The overlay refuses the publish; the caller still gets its 200. *)
Lemma send_handler_contract_witness :
  topic gateway = Some (mkTopic "sight-message")
  ∧ Publish offline fresh "sight-message" [] = Some "context deadline exceeded"
  ∧ status <$> (match SendHandler offline (mkController gateway)
                        (B (json.encode (json.VMap request))) fresh with
                | Done resp _ => Some resp
                | _ => None
                end) = Some 200
  ∧ SendHandler offline (mkController gateway) malformed fresh
    = Done (http_Error "Invalid JSON" 400) fresh.
Proof.
  split; [reflexivity|]. split; [reflexivity|].
  pose proof (send_handler_contract offline (mkController gateway) _
                (B (json.encode (json.VMap request))) fresh eq_refl) as [_ Hok].
  pose proof (send_handler_contract offline (mkController gateway) _
                malformed fresh eq_refl) as [Hbad _].
  split.
  - destruct (Hok (Some request)) as (resp & w' & Hrun & Hst & _);
      [vm_compute; reflexivity|].
    rewrite Hrun. simpl. by rewrite Hst.
  - apply (Hbad "invalid character"). vm_compute. reflexivity.
Defined.

Lemma keypair_load_refreshes_lastUsed_witness :
  json_Marshal_Keypair online kp0 = Ok saved
  ∧ json_Unmarshal_Keypair online saved = Ok kp0
  ∧ files stored !! keyFile online = Some saved
  ∧ ∃ kp' w', LoadOrGenerateKeypair online stored = Done kp' w'
      ∧ Seed kp' = Seed kp0
      ∧ CreatedAt kp' = CreatedAt kp0
      ∧ PublicKey kp' = PublicKey kp0
      ∧ LastUsed kp' = "2025-10-31T13:00:14Z"
      ∧ ∃ data, Marshal_Keypair kp' = Ok data
                ∧ files w' !! key_path = Some data.
Proof.
  split; [reflexivity|]. split; [vm_compute; reflexivity|].
  split; [vm_compute; reflexivity|].
  destruct (keypair_load_refreshes_lastUsed online kp0 saved
              (match Marshal_Keypair (with_LastUsed kp0 "2025-10-31T13:00:14Z") with
               | Ok data => data
               | Err _ => []
               end) stored)
    as (kp' & w' & Hrun & Hseed & Hcreated & Hpk & Hused & Henc & Hfile & _);
    [ reflexivity | vm_compute; reflexivity | vm_compute; reflexivity
    | reflexivity | reflexivity | vm_compute; reflexivity
    | intros; reflexivity | ].
  exists kp', w'. split; [exact Hrun|].
  split; [exact Hseed|]. split; [exact Hcreated|]. split; [exact Hpk|].
  split; [rewrite Hused; vm_compute; reflexivity|].
  eexists. split; [exact Henc | exact Hfile].
Defined.

(** C5 as stated fails.  With a clock that was set back between the save
    and the load, the keypair a first start saved comes back from the next
    start with a lastUsed that is earlier than the one saved. *)
Lemma lastUsed_goes_back_counterexample :
  ∃ kp1 w1 kp2 w2,
    LoadOrGenerateKeypair scenario.rewinding fresh = Done kp1 w1
    ∧ LoadOrGenerateKeypair scenario.rewinding w1 = Done kp2 w2
    ∧ Seed kp2 = Seed kp1
    ∧ LastUsed kp1 = "2025-10-31T12:59:53Z"
    ∧ LastUsed kp2 = "2025-10-31T12:59:46Z"
    ∧ ¬ lastUsed_not_earlier scenario.rewinding kp1 kp2.
Proof.
  eexists _, _, _, _.
  split; [vm_compute; reflexivity|].
  split; [vm_compute; reflexivity|].
  split; [reflexivity|]. split; [reflexivity|]. split; [reflexivity|].
  intros H.
  specialize (H (1761915600 - 7) (1761915600 - 14)).
  assert (1761915600 - 7 ≤ 1761915600 - 14) as Hle.
  { apply H; vm_compute; reflexivity. }
  lia.
Qed.

Lemma corrupt_keypair_is_fatal_witness :
  files damaged !! keyFile online = Some malformed
  ∧ json_Unmarshal_Keypair online malformed = Err "invalid character"
  ∧ ∃ w', LoadOrGenerateKeypair online damaged = Fatal w'
          ∧ main_startup online damaged = Fatal w'
          ∧ files w' = files damaged
          ∧ keygens w' = [].
Proof.
  split; [vm_compute; reflexivity|]. split; [vm_compute; reflexivity|].
  destruct (corrupt_keypair_is_fatal online malformed "invalid character" damaged)
    as (w' & Hload & Hmain & _ & Hfiles & Hkeys & _);
    try (vm_compute; reflexivity).
  exists w'. by rewrite Hkeys.
Defined.

(** Three configured peers, one malformed and one refusing the dial. *)
Lemma bootstrap_tolerance_witness :
  bootstrap (NewLibp2pNodeService kp0 15050 tunnel false
               (strings_Split (Getenv "BOOTSTRAP_ADDRS") ","%char))
  = ["/ip4/10.0.0.1/tcp/4010/p2p/alpha"; "not-an-address";
     "/ip4/10.0.0.2/tcp/4010/p2p/down"]
  ∧ AddrInfoFromString "not-an-address" = Err "failed to parse multiaddr"
  ∧ Connect fresh (mkAddrInfo "down" ["/ip4/10.0.0.2/tcp/4010"])
    = Some "connection refused"
  ∧ ∃ s' w',
      InitNode online
        (NewLibp2pNodeService kp0 15050 tunnel false
           (strings_Split (Getenv "BOOTSTRAP_ADDRS") ","%char)) fresh
      = Done s' w'
      ∧ subscribed s' = Some (mkSubscription "sight-message")
      ∧ connects w' = [ mkAddrInfo "alpha" ["/ip4/10.0.0.1/tcp/4010"];
                        mkAddrInfo "down" ["/ip4/10.0.0.2/tcp/4010"] ].
Proof.
  split; [vm_compute; reflexivity|]. split; [vm_compute; reflexivity|].
  split; [vm_compute; reflexivity|].
  destruct (bootstrap_tolerance online
              (NewLibp2pNodeService kp0 15050 tunnel false
                 (strings_Split (Getenv "BOOTSTRAP_ADDRS") ","%char)) fresh)
    as (_ & s' & w' & Hrun & _ & _ & Hsub & Hconn);
    try (intros; eexists; reflexivity); try (intros; reflexivity).
  exists s', w'. split_and!; [done..|].
  rewrite Hconn. vm_compute. reflexivity.
Defined.

Lemma one_keypair_one_identity_witness :
  ∃ c w', main_startup online fresh = Done c w'
    ∧ keypair (service c) = with_LastUsed kp0 (LastUsed (keypair (service c)))
    ∧ did (service c) = derive (PublicKey kp0) false
    ∧ host_identity <$> node (service c) = Some (to_bytes (replicate 32 2))
    ∧ length (keygens w') = 2%nat.
Proof.
  destruct (main_startup online fresh) as [c w'| |] eqn:Hrun;
    [|vm_compute in Hrun; discriminate..].
  exists c, w'. split; [reflexivity|].
  destruct (one_keypair_one_identity online fresh c w' Hrun)
    as (kp & w1 & host & priv & pub & Hload & Hkp & Hdid & _ & Hnode & Hid & Hgen & Hkeys).
  vm_compute in Hload. injection Hload as <- <-.
  vm_compute in Hgen. injection Hgen as <- <-.
  rewrite Hkp, Hdid, Hnode, Hkeys. simpl. rewrite Hid.
  assert (isGateway (service c) = false) as ->.
  { vm_compute in Hrun. by injection Hrun as <- _. }
  split_and!; vm_compute; reflexivity.
Defined.

(** C9 as stated fails: a freshly started node runs its overlay host under
    a key pair that is not its [Keypair]; two key pairs were generated. *)
Lemma second_keypair_counterexample :
  ∃ c w', main_startup online fresh = Done c w'
    ∧ ¬ sole_keypair (service c)
    ∧ length (keygens w') = 2%nat.
Proof.
  eexists _, _. split; [vm_compute; reflexivity|]. split.
  - intros H. specialize (H _ eq_refl). vm_compute in H. discriminate.
  - vm_compute. reflexivity.
Qed.

(** ** Runs of the model *)

Example base58_hello : base58.Encode (B "Hello World!") = "2NEpo7TZRRrLZSi2U".
Proof. vm_compute. reflexivity. Qed.

Example base58_leading_zeros :
  base58.Encode [x00; x00; x28; x7f; xb4; xcd] = "11233QC4".
Proof. vm_compute. reflexivity. Qed.

Example did_of_kp0 :
  ToSightDID (PublicKey kp0)
  = "did:sight:hoster:6MkqGHLVRm4xG1iRyruUN9rQA33syw4B46Z6JYvA68sTXPV".
Proof. vm_compute. reflexivity. Qed.

(** Object members leave the encoder in key order; [<] is escaped. *)
Example encode_envelope :
  json.encode (json.VMap {[ "to" := json.VStr "a<b"; "payload" := json.VArr [order; json.VNil] ]})
  = "{" +:+ json.dquote +:+ "payload" +:+ json.dquote +:+ ":[{"
    +:+ json.dquote +:+ "n" +:+ json.dquote +:+ ":1},null],"
    +:+ json.dquote +:+ "to" +:+ json.dquote +:+ ":"
    +:+ json.dquote +:+ "a\u003cb" +:+ json.dquote +:+ "}".
Proof. vm_compute. reflexivity. Qed.

Example decode_encode_envelope :
  Unmarshal for_gateway
  = Ok (Some {[ "to" := json.VStr "gateway"; "payload" := order ]}).
Proof. vm_compute. reflexivity. Qed.

(** A body followed by more text: [Decode] takes the first value,
    [Unmarshal] refuses the whole. *)
Example decode_takes_first_value :
  Decode (B "{} trailing") = Ok (Some ∅)
  ∧ Unmarshal (B "{} trailing") = Err "invalid character after top-level value".
Proof. vm_compute. done. Qed.

(** A first start writes the keypair file; a second start on that disk
    reads the same keypair back and derives the same identity, while the
    overlay host gets yet another key. *)
Example restart_keeps_identity :
  ∃ c1 w1 c2 w2,
    main_startup online fresh = Done c1 w1
    ∧ main_startup online w1 = Done c2 w2
    ∧ did (service c2) = did (service c1)
    ∧ Seed (keypair (service c2)) = Seed (keypair (service c1))
    ∧ CreatedAt (keypair (service c2)) = CreatedAt (keypair (service c1))
    ∧ LastUsed (keypair (service c1)) = "2025-10-31T13:00:07Z"
    ∧ LastUsed (keypair (service c2)) = "2025-10-31T13:00:14Z"
    ∧ host_identity <$> node (service c1) = Some (to_bytes (replicate 32 2))
    ∧ host_identity <$> node (service c2) = Some (to_bytes (replicate 32 3)).
Proof.
  eexists _, _, _, _.
  split; [vm_compute; reflexivity|].
  split; [vm_compute; reflexivity|].
  vm_compute. done.
Qed.

(** * The further properties at work *)

Import scenario.

Lemma distinct_keys_distinct_identities_witness :
  key_a ≠ key_b ∧ ToSightDID key_a ≠ ToSightDID key_b.
Proof.
  split; [by vm_compute|].
  apply distinct_keys_distinct_identities. by vm_compute.
Defined.

(** Two gateways with different keys answer to the same identity. *)
Lemma identity_collision_witness :
  did (NewLibp2pNodeService kp0 15050 tunnel true [])
  = did (NewLibp2pNodeService kp_b 4010 "" true [])
  ∧ true = true ∧ (true = false → PublicKey kp0 = PublicKey kp_b).
Proof.
  split; [reflexivity|].
  exact (identity_collision kp0 kp_b 15050 4010 tunnel "" true true [] [] eq_refl).
Defined.

Lemma returned_keypair_is_on_disk_witness :
  ∃ kp w', LoadOrGenerateKeypair online fresh = Done kp w'
    ∧ ∃ data, json_Marshal_Keypair online kp = Ok data
              ∧ files w' !! keyFile online = Some data
              ∧ ∀ path, path ≠ keyFile online → files w' !! path = files fresh !! path.
Proof.
  destruct (LoadOrGenerateKeypair online fresh) as [kp w'| |] eqn:Hrun;
    [|vm_compute in Hrun; discriminate..].
  exists kp, w'. split; [reflexivity|].
  apply (returned_keypair_is_on_disk online fresh kp w' Hrun).
Defined.

(** The disk fills up during the first start: the start is fatal and
    the keypair file is left with the first five bytes of the encoding. *)
Lemma fatal_load_touches_only_keypair_file_witness :
  ∃ w', LoadOrGenerateKeypair disk_full fresh = Fatal w'
    ∧ files w' !! keyFile disk_full = Some (take 5 saved)
    ∧ (∀ path, path ≠ keyFile disk_full → files w' !! path = files fresh !! path)
    ∧ writes w' = writes fresh.
Proof.
  destruct (LoadOrGenerateKeypair disk_full fresh) as [| w' |] eqn:Hrun;
    [vm_compute in Hrun; discriminate | | vm_compute in Hrun; discriminate].
  exists w'. split; [reflexivity|].
  destruct (fatal_load_touches_only_keypair_file disk_full fresh w' Hrun)
    as (Hother & Hwrites & _).
  split; [|split; [exact Hother | exact Hwrites]].
  vm_compute in Hrun. injection Hrun as <-. vm_compute. reflexivity.
Defined.

Lemma restart_keeps_keypair_witness :
  files fresh !! keyFile online = None
  ∧ reference.GenerateKeyPair fresh
    = Ok (to_bytes (replicate 32 1), to_bytes (replicate 32 160))
  ∧ ∃ w1 w2,
      LoadOrGenerateKeypair online fresh = Done kp0 w1
      ∧ LoadOrGenerateKeypair online w1
        = Done (with_LastUsed kp0 "2025-10-31T13:00:14Z") w2
      ∧ keygens w2 = [(to_bytes (replicate 32 1), to_bytes (replicate 32 160))].
Proof.
  split; [reflexivity|]. split; [vm_compute; reflexivity|].
  destruct (restart_keeps_keypair online fresh
              (to_bytes (replicate 32 1)) (to_bytes (replicate 32 160)) saved
              (match Marshal_Keypair (with_LastUsed kp0 "2025-10-31T13:00:14Z") with
               | Ok data => data
               | Err _ => []
               end))
    as (w1 & w2 & Hrun1 & Hrun2 & _ & _ & _ & _ & Hk1 & Hk2 & _ & _);
    [ reflexivity | vm_compute; reflexivity | vm_compute; reflexivity
    | vm_compute; reflexivity | vm_compute; reflexivity
    | intros; reflexivity | intros; reflexivity | intros; reflexivity | ].
  exists w1, w2. split; [exact Hrun1|]. split; [exact Hrun2|].
  rewrite Hk2, Hk1. reflexivity.
Defined.

(** The stored keypair is [kp0]; after the start it is gone. *)
Lemma stat_failure_replaces_keypair_witness :
  files stored !! keyFile locked = Some saved
  ∧ stat_error locked stored (keyFile locked) = Some "permission denied"
  ∧ ∃ kp w', LoadOrGenerateKeypair locked stored = Done kp w'
      ∧ Seed kp = to_bytes (replicate 32 1)
      ∧ CreatedAt kp = "2025-10-31T13:00:14Z"
      ∧ files w' !! keyFile locked ≠ Some saved.
Proof.
  split; [vm_compute; reflexivity|]. split; [reflexivity|].
  destruct (stat_failure_replaces_keypair locked stored saved "permission denied"
              (to_bytes (replicate 32 1)) (to_bytes (replicate 32 160))
              (match Marshal_Keypair
                       (mkKeypair (to_bytes (replicate 32 1)) "2025-10-31T13:00:14Z"
                          "2025-10-31T13:00:21Z" (to_bytes (replicate 32 160))) with
               | Ok data => data
               | Err _ => []
               end))
    as (kp & w' & Hrun & Hseed & _ & Hfile & _);
    [ vm_compute; reflexivity | reflexivity | vm_compute; reflexivity
    | vm_compute; reflexivity | intros; reflexivity | ].
  exists kp, w'. split; [exact Hrun|]. split; [exact Hseed|].
  split.
  - vm_compute in Hrun. by injection Hrun as <- _.
  - rewrite Hfile. vm_compute. discriminate.
Defined.

Lemma every_address_dialled_or_reported_witness :
  ∃ host ps w',
    CreateLibp2pNode online 15050
      ["/ip4/10.0.0.1/tcp/4010/p2p/alpha"; "not-an-address";
       "/ip4/10.0.0.2/tcp/4010/p2p/down"] fresh
    = Done (host, ps) w'
    ∧ host_listen host = "/ip4/0.0.0.0/tcp/15050"
    ∧ invalid_lines online
        ["/ip4/10.0.0.1/tcp/4010/p2p/alpha"; "not-an-address";
         "/ip4/10.0.0.2/tcp/4010/p2p/down"]
      = ["Invalid bootstrap addr: not-an-address (failed to parse multiaddr)"]
    ∧ length (connects w') = 2%nat.
Proof.
  destruct (CreateLibp2pNode online 15050
              ["/ip4/10.0.0.1/tcp/4010/p2p/alpha"; "not-an-address";
               "/ip4/10.0.0.2/tcp/4010/p2p/down"] fresh)
    as [[host ps] w'| |] eqn:Hrun; [|vm_compute in Hrun; discriminate..].
  exists host, ps, w'. split; [reflexivity|].
  destruct (every_address_dialled_or_reported online 15050 _ fresh host ps w' Hrun)
    as (priv & pub & dialled & Hlisten & _ & _ & _).
  split; [rewrite Hlisten; vm_compute; reflexivity|].
  split; [vm_compute; reflexivity|].
  vm_compute in Hrun. injection Hrun as _ _ <-. reflexivity.
Defined.

Lemma fatal_creation_dials_nobody_witness :
  ∃ w', CreateLibp2pNode no_gossip 15050 ["/ip4/10.0.0.1/tcp/4010/p2p/alpha"] fresh
        = Fatal w'
    ∧ connects w' = connects fresh ∧ files w' = files fresh
    ∧ writes w' = writes fresh.
Proof.
  destruct (CreateLibp2pNode no_gossip 15050 ["/ip4/10.0.0.1/tcp/4010/p2p/alpha"] fresh)
    as [| w' |] eqn:Hrun;
    [vm_compute in Hrun; discriminate | | vm_compute in Hrun; discriminate].
  exists w'. split; [reflexivity|].
  apply (fatal_creation_dials_nobody no_gossip 15050 _ fresh w' Hrun).
Defined.

Lemma initialised_service_runs_witness :
  ∃ s' w',
    InitNode online (NewLibp2pNodeService kp0 15050 tunnel false []) fresh
    = Done s' w'
    ∧ topic s' = Some (mkTopic "sight-message")
    ∧ pubsub s' = None
    ∧ ∃ w2, Stop online s' w' = Done tt w2.
Proof.
  destruct (InitNode online (NewLibp2pNodeService kp0 15050 tunnel false []) fresh)
    as [s' w'| |] eqn:Hrun; [|vm_compute in Hrun; discriminate..].
  exists s', w'. split; [reflexivity|].
  destruct (initialised_service_runs online _ fresh s' w' Hrun)
    as (Htopic & _ & Hps & _ & _ & _ & host & ps & w1 & _ & Hstop).
  split; [exact Htopic|]. split; [exact Hps|].
  destruct (Hstop w') as (w2 & Hdone & _). by exists w2.
Defined.

Lemma foreign_traffic_leaves_no_trace_witness :
  subscribed gateway = Some (mkSubscription "sight-message")
  ∧ handleIncomingMessages online gateway
      (Message <$> [for_other; B "null"; B (json.encode (json.VMap anonymous))])
      fresh
    = Waiting fresh.
Proof.
  split; [reflexivity|].
  apply (foreign_traffic_leaves_no_trace online gateway _ _ fresh eq_refl).
  repeat constructor; eexists; (split; [vm_compute; reflexivity|]);
    vm_compute; discriminate.
Defined.

(** The gateway's handler takes a request for the hoster; the hoster's
    loop posts the whole request to its tunnel, the gateway's own loop
    drops it. *)
Lemma relay_end_to_end_witness :
  json_Decode online (B (json.encode (json.VMap request))) = Ok (Some request)
  ∧ request !! "to" = Some (json.VStr (did hoster))
  ∧ did gateway ≠ did hoster
  ∧ ∃ data resp w',
      SendHandler online (mkController gateway)
        (B (json.encode (json.VMap request))) fresh = Done resp w'
      ∧ publishes w' = [("sight-message", data)]
      ∧ posts (final (handle_message online hoster data fresh))
        = [(tunnel, "application/json", B (json.encode (json.VMap request)))]
      ∧ handle_message online gateway data fresh = Done tt fresh.
Proof.
  split; [vm_compute; reflexivity|]. split; [vm_compute; reflexivity|].
  split; [by vm_compute|].
  apply (relay_end_to_end online (mkController gateway) (mkTopic "sight-message")
           (B (json.encode (json.VMap request))) request hoster gateway
           fresh fresh fresh);
    try (vm_compute; reflexivity). by vm_compute.
Defined.

Lemma request_without_recipient_witness :
  json_Decode online (B (json.encode (json.VMap anonymous))) = Ok (Some anonymous)
  ∧ json.index (Some anonymous) "to" = json.VNil
  ∧ ∃ resp w',
      SendHandler online (mkController gateway)
        (B (json.encode (json.VMap anonymous))) fresh = Done resp w'
      ∧ status resp = 200
      ∧ publishes w'
        = [("sight-message",
            B (json.encode
                 (json.VMap {[ "to" := json.VNil;
                               "payload" := json.VMap anonymous ]})))]
      ∧ handle_message online hoster
          (B (json.encode
                (json.VMap {[ "to" := json.VNil;
                              "payload" := json.VMap anonymous ]}))) fresh
        = Done tt fresh.
Proof.
  split; [vm_compute; reflexivity|]. split; [vm_compute; reflexivity|].
  apply (request_without_recipient online (mkController gateway)
           (mkTopic "sight-message") (B (json.encode (json.VMap anonymous)))
           (Some anonymous) hoster fresh fresh);
    try (vm_compute; reflexivity).
  intros text. vm_compute. discriminate.
Defined.

Lemma startup_configuration_witness :
  ∃ c w', main_startup bare fresh = Done c w'
    ∧ isGateway (service c) = false
    ∧ tunnelAPI (service c) = "http://localhost:/libp2p/message"
    ∧ nodePort (service c) = 15050.
Proof.
  destruct (main_startup bare fresh) as [c w'| |] eqn:Hrun;
    [|vm_compute in Hrun; discriminate..].
  exists c, w'. split; [reflexivity|].
  destruct (startup_configuration bare fresh c w' Hrun)
    as (Hgw & _ & Hapi & _ & Hport & _).
  split.
  - destruct (isGateway (service c)); [|done].
    destruct Hgw as [Hgw _]. specialize (Hgw eq_refl). vm_compute in Hgw.
    discriminate.
  - split; [exact Hapi|]. apply Hport. by left.
Defined.

Lemma bootstrap_list_from_variable_witness :
  ∃ c w', main_startup online fresh = Done c w'
    ∧ bootstrap (service c)
      = ["/ip4/10.0.0.1/tcp/4010/p2p/alpha"; "not-an-address";
         "/ip4/10.0.0.2/tcp/4010/p2p/down"]
    ∧ String.concat "," (bootstrap (service c))
      = "/ip4/10.0.0.1/tcp/4010/p2p/alpha,not-an-address,/ip4/10.0.0.2/tcp/4010/p2p/down"
    ∧ EvLog "Invalid bootstrap addr: not-an-address (failed to parse multiaddr)"
      ∈ trace w'
    ∧ connects w' = [ mkAddrInfo "alpha" ["/ip4/10.0.0.1/tcp/4010"];
                      mkAddrInfo "down" ["/ip4/10.0.0.2/tcp/4010"] ].
Proof.
  destruct (main_startup online fresh) as [c w'| |] eqn:Hrun;
    [|vm_compute in Hrun; discriminate..].
  exists c, w'. split; [reflexivity|].
  destruct (bootstrap_list_from_variable online fresh c w' Hrun)
    as (_ & Hjoin & _ & _ & Hconn
        & kp & w0 & priv & pub & host & dialled & _ & _ & Htrace & _).
  assert (bootstrap (service c)
          = ["/ip4/10.0.0.1/tcp/4010/p2p/alpha"; "not-an-address";
             "/ip4/10.0.0.2/tcp/4010/p2p/down"]) as Hlist.
  { vm_compute in Hrun. by injection Hrun as <- _. }
  split; [exact Hlist|]. split; [exact Hjoin|].
  rewrite Htrace, Hconn, Hlist. split; [|vm_compute; reflexivity].
  assert (invalid_lines online
            ["/ip4/10.0.0.1/tcp/4010/p2p/alpha"; "not-an-address";
             "/ip4/10.0.0.2/tcp/4010/p2p/down"]
          = ["Invalid bootstrap addr: not-an-address (failed to parse multiaddr)"])
    as -> by (vm_compute; reflexivity).
  set_solver.
Defined.

Lemma unset_bootstrap_variable_witness :
  invalid_lines bare [""]
  = ["Invalid bootstrap addr:  (failed to parse multiaddr)"]
  ∧ ∃ c w', main_startup bare fresh = Done c w'
      ∧ bootstrap (service c) = [""]
      ∧ connects w' = [].
Proof.
  split; [vm_compute; reflexivity|].
  destruct (main_startup bare fresh) as [c w'| |] eqn:Hrun;
    [|vm_compute in Hrun; discriminate..].
  exists c, w'. split; [reflexivity|].
  destruct (unset_bootstrap_variable bare fresh c w' "failed to parse multiaddr" Hrun)
    as (Hlist & Hconn & _); [reflexivity | vm_compute; reflexivity | ].
  split; [exact Hlist | exact Hconn].
Defined.
